(** * steam-library.py: a shallow embedding and its verified properties

    The script fetches a Steam library through [requests], caches
    successful responses by URL, backs off on HTTP 429, and writes one CSV
    row per game.  Python values decoded from JSON are modelled by [JSON];
    the interpreter state the script touches (the module-level
    [response_cache], the network, [time.sleep], the console and the output
    file) by [State]; Python exceptions by the [Raise] outcome. *)

From Stdlib Require Import ZArith QArith Lia Ascii.
From stdpp Require Import gmap strings list pretty.

Local Open Scope string_scope.
Local Open Scope Z_scope.

(** ** Python values decoded from JSON *)

(** What [response.json()] yields.  Numbers are the integer ones: the
    fields the script computes with ([achieved], [rtime_last_played],
    [appid]) are integers in the Steam API. *)
#[warnings="-register-all"]
Inductive JSON : Type :=
| JNull
| JBool (b : bool)
| JInt (n : Z)
| JStr (s : string)
| JArr (items : list JSON)
| JObj (fields : list (string * JSON)).

(** ** Responses, exceptions, outcomes *)

(** A [requests.Response]: its [status_code], its raw [content], and what
    its [json()] method decodes ([None] when the body is not JSON). *)
Record Response : Type := mkResponse {
  status_code : Z;
  content : string;
  json : option JSON
}.

(** The exceptions the script can meet.  [RequestException] stands for
    the class and its subclasses as [requests.get] and [raise_for_status]
    raise them, and carries [e.response].  [JSONDecodeError] is what
    [response.json()] raises; the script never calls it inside a [try]
    that names [RequestException].  [ValueError] also stands for the error
    of [utcfromtimestamp] on a timestamp out of range. *)
Inductive PyExn : Type :=
| RequestException (response : option Response)
| JSONDecodeError
| AttributeError
| KeyError (key : string)
| TypeError
| ValueError.

Inductive outcome (A : Type) : Type :=
| Return (a : A)
| Raise (e : PyExn).
Arguments Return {A} a.
Arguments Raise {A} e.

(** What one [requests.get(url)] does: it returns a response (of any
    status) or raises a [RequestException] whose [response] may be absent
    (connection errors) or present. *)
Inductive NetResult : Type :=
| NetResponse (r : Response)
| NetError (e_response : option Response).

(** ** Rows and console lines *)

(** One [writer.writerow] call of [main]; the fields are the CSV columns. *)
Record Row : Type := mkRow {
  Name : JSON;
  Review_Rating : JSON;
  Metacritic_Score : JSON;
  Playtime_in_Minutes : JSON;
  Date_Released : string;
  Last_Played_Added : string;
  Beaten : bool
}.

(** The [print] calls of the script, one constructor per call site. *)
Inductive LogLine : Type :=
| Waiting (wait_seconds : Z) (url : string)
| ReachedMaxAttempts (url : string)
| Got429 (url : string) (wait_time_seconds : Z)
| FetchException (url : string) (e : PyExn)
| ResponseContent (content : option string)
| NoSteamId
| NoOwnedGames
| GameException (appid name : JSON) (e : PyExn).

(** ** The state of a run *)

(** [response_cache] is the module-level dict; [net_calls] lists the URLs
    passed to [requests.get], oldest first; [sleeps] the arguments of
    [time.sleep], oldest first; [console] the printed lines, oldest first;
    [csvfile] is [None] until [open('steam_library.csv', 'w')] and then
    holds the data rows written after the header. *)
Record State : Type := mkState {
  response_cache : gmap string Response;
  net_calls : list string;
  sleeps : list Z;
  console : list LogLine;
  csvfile : option (list Row)
}.

Definition initial_state : State :=
  {| response_cache := ∅; net_calls := []; sleeps := []; console := [];
     csvfile := None |}.

(** ** A state-and-exception monad *)

Definition M (A : Type) : Type := State -> outcome A * State.

Definition ret {A} (a : A) : M A := fun s => (Return a, s).

Definition raise {A} (e : PyExn) : M A := fun s => (Raise e, s).

Definition bind {A B} (m : M A) (k : A -> M B) : M B :=
  fun s =>
    match m s with
    | (Return a, s') => k a s'
    | (Raise e, s') => (Raise e, s')
    end.

Notation "x <- m ;; k" := (bind m (fun x => k))
  (at level 100, m at next level, right associativity).
Notation "m ;; k" := (bind m (fun _ => k))
  (at level 100, right associativity).

(** [try: body / except <class> as e: handler e]; [catches] tells which
    exceptions the clause's class covers. *)
Definition try_except {A} (body : M A) (catches : PyExn -> bool)
    (handler : PyExn -> M A) : M A :=
  fun s =>
    match body s with
    | (Return a, s') => (Return a, s')
    | (Raise e, s') => if catches e then handler e s' else (Raise e, s')
    end.

Definition lift {A} (o : outcome A) : M A := fun s => (o, s).

Definition print (l : LogLine) : M unit :=
  fun s => (Return tt,
            {| response_cache := response_cache s; net_calls := net_calls s;
               sleeps := sleeps s; console := console s ++ [l];
               csvfile := csvfile s |}).

Definition time_sleep (seconds : Z) : M unit :=
  fun s => (Return tt,
            {| response_cache := response_cache s; net_calls := net_calls s;
               sleeps := sleeps s ++ [seconds]; console := console s;
               csvfile := csvfile s |}).

Definition cache_lookup (url : string) : M (option Response) :=
  fun s => (Return (response_cache s !! url), s).

Definition cache_store (url : string) (r : Response) : M unit :=
  fun s => (Return tt,
            {| response_cache := <[url := r]> (response_cache s);
               net_calls := net_calls s; sleeps := sleeps s;
               console := console s; csvfile := csvfile s |}).

(** [except requests.RequestException] *)
Definition is_RequestException (e : PyExn) : bool :=
  match e with RequestException _ => true | _ => false end.

(** [except Exception]: every exception of the model is an [Exception]. *)
Definition is_Exception (e : PyExn) : bool := true.

(** [response.raise_for_status()]: an [HTTPError] carrying the response
    for the 4xx and 5xx codes. *)
Definition raise_for_status (r : Response) : M unit :=
  if (400 <=? status_code r) && (status_code r <? 600)
  then raise (RequestException (Some r))
  else ret tt.

(** Sequencing of computations that touch no state. *)
Definition and_then {A B} (o : outcome A) (k : A -> outcome B) : outcome B :=
  match o with
  | Return a => k a
  | Raise e => Raise e
  end.

Notation "'let*' x := o 'in' k" := (and_then o (fun x => k))
  (at level 10, x name, o at level 100, k at level 200).

(** [response.json()] on what [request] returned: [None] has no such
    attribute; a body that is not JSON does not decode. *)
Definition response_json (response : option Response) : outcome JSON :=
  match response with
  | None => Raise AttributeError
  | Some r =>
      match json r with
      | Some data => Return data
      | None => Raise JSONDecodeError
      end
  end.

(** ** Python operations on decoded values *)

(** [d[key]] on a dict; the list holds the dict's items, one per key. *)
Fixpoint dict_lookup (key : string) (fields : list (string * JSON))
    : option JSON :=
  match fields with
  | [] => None
  | (k, v) :: rest => if String.eqb k key then Some v else dict_lookup key rest
  end.

Fixpoint is_prefix (p s : string) : bool :=
  match p, s with
  | EmptyString, _ => true
  | String a p', String b s' => Ascii.eqb a b && is_prefix p' s'
  | String _ _, EmptyString => false
  end.

(** [p in s] on two strings *)
Fixpoint is_substring (p s : string) : bool :=
  is_prefix p s ||
  match s with
  | EmptyString => false
  | String _ s' => is_substring p s'
  end.

(** [key in v] for a string [key]: key membership in a dict, element
    membership in a list, substring test on a string, [TypeError]
    elsewhere. *)
Definition py_contains (key : string) (v : JSON) : outcome bool :=
  match v with
  | JObj fields => Return (bool_decide (is_Some (dict_lookup key fields)))
  | JArr items =>
      Return (existsb (fun x => match x with
                                | JStr s => String.eqb s key
                                | _ => false
                                end) items)
  | JStr s => Return (is_substring key s)
  | JNull | JBool _ | JInt _ => Raise TypeError
  end.

(** [v[key]] for a string [key]: the dict's value or [KeyError]; lists and
    strings take integer indices only, the rest is not subscriptable. *)
Definition py_getitem (v : JSON) (key : string) : outcome JSON :=
  match v with
  | JObj fields =>
      match dict_lookup key fields with
      | Some x => Return x
      | None => Raise (KeyError key)
      end
  | _ => Raise TypeError
  end.

(** [v.get(key, default)] *)
Definition py_get (v : JSON) (key : string) (default : JSON) : outcome JSON :=
  match v with
  | JObj fields =>
      match dict_lookup key fields with
      | Some x => Return x
      | None => Return default
      end
  | _ => Raise AttributeError
  end.

(** Truth value, as tested by [if v] and [not v]. *)
Definition py_truthy (v : JSON) : bool :=
  match v with
  | JNull => false
  | JBool b => b
  | JInt n => negb (n =? 0)
  | JStr s => negb (String.eqb s "")
  | JArr items => match items with [] => false | _ => true end
  | JObj fields => match fields with [] => false | _ => true end
  end.

(** [len(v)] *)
Definition py_len (v : JSON) : outcome Z :=
  match v with
  | JArr items => Return (Z.of_nat (length items))
  | JObj fields => Return (Z.of_nat (length fields))
  | JStr s => Return (Z.of_nat (String.length s))
  | JNull | JBool _ | JInt _ => Raise TypeError
  end.

Fixpoint chars (s : string) : list JSON :=
  match s with
  | EmptyString => []
  | String c s' => JStr (String c EmptyString) :: chars s'
  end.

(** The items [for x in v] visits: a list's elements, a dict's keys, a
    string's characters. *)
Definition py_iter (v : JSON) : outcome (list JSON) :=
  match v with
  | JArr items => Return items
  | JObj fields => Return (map (fun kv => JStr (fst kv)) fields)
  | JStr s => Return (chars s)
  | JNull | JBool _ | JInt _ => Raise TypeError
  end.

(** The integer an operand of [+] stands for ([bool] is an [int]). *)
Definition int_value (v : JSON) : option Z :=
  match v with
  | JInt n => Some n
  | JBool b => Some (if b then 1 else 0)
  | _ => None
  end.

(** [sum(ach['achieved'] for ach in achievements)], started at [acc]. *)
Fixpoint sum_achieved (achievements : list JSON) (acc : Z) : outcome Z :=
  match achievements with
  | [] => Return acc
  | ach :: rest =>
      match py_getitem ach "achieved" with
      | Raise e => Raise e
      | Return v =>
          match int_value v with
          | Some n => sum_achieved rest (acc + n)
          | None => Raise TypeError
          end
      end
  end.

(** [unlocked >= total / 2]: [/] is true division, and the comparison of
    an [int] with the resulting [float] is exact. *)
Definition at_least_half (unlocked total : Z) : bool :=
  Qle_bool (inject_Z total / 2) (inject_Z unlocked).

(** ** Dates: the [datetime] calls of the script

    [datetime.strptime(s, "%d %b, %Y")], [strftime("%Y-%m-%d")] and
    [datetime.utcfromtimestamp] are library calls; they are modelled after
    the library's documented behaviour in the C locale, over strings whose
    characters are the code points below 256. *)

Definition is_leap (year : Z) : bool :=
  (year mod 4 =? 0) && (negb (year mod 100 =? 0) || (year mod 400 =? 0)).

Definition DAYS_IN_MONTH : list Z :=
  [31; 28; 31; 30; 31; 30; 31; 31; 30; 31; 30; 31].

Definition DAYS_BEFORE_MONTH : list Z :=
  [0; 31; 59; 90; 120; 151; 181; 212; 243; 273; 304; 334].

(** Months are numbered from 1. *)
Definition days_in_month_of (leapyear : bool) (month : Z) : Z :=
  if (month =? 2) && leapyear then 29
  else nth (Z.to_nat (month - 1)) DAYS_IN_MONTH 0.

Definition days_in_month (year month : Z) : Z :=
  days_in_month_of (is_leap year) month.

Definition days_before_year (year : Z) : Z :=
  let y := year - 1 in
  y * 365 + y / 4 - y / 100 + y / 400.

Definition days_in_year (year : Z) : Z := if is_leap year then 366 else 365.

Definition days_before_month_of (leapyear : bool) (month : Z) : Z :=
  nth (Z.to_nat (month - 1)) DAYS_BEFORE_MONTH 0
  + (if (2 <? month) && leapyear then 1 else 0).

Definition days_before_month (year month : Z) : Z :=
  days_before_month_of (is_leap year) month.

(** What [datetime(year, month, day)] accepts. *)
Definition valid_date (year month day : Z) : bool :=
  (1 <=? year) && (year <=? 9999) && (1 <=? month) && (month <=? 12)
  && (1 <=? day) && (day <=? days_in_month year month).

(** The proleptic Gregorian ordinal of a date; 0001-01-01 is day 1. *)
Definition ymd2ord (year month day : Z) : Z :=
  days_before_year year + days_before_month year month + day.

(** The month and the day of the [n]-th day (from 0) of a year: an
    estimate of the month that is exact or one too large, then the
    correction. *)
Definition month_and_day (n : Z) (leapyear : bool) : Z * Z :=
  let month := Z.shiftr (n + 50) 5 in
  let preceding := days_before_month_of leapyear month in
  if n <? preceding then
    let month := month - 1 in
    let preceding := preceding - days_in_month_of leapyear month in
    (month, n - preceding + 1)
  else (month, n - preceding + 1).

(** The date of an ordinal, by the [datetime] module's division into
    400-, 100-, 4- and 1-year cycles. *)
Definition ord2ymd (ordinal : Z) : Z * Z * Z :=
  let n := ordinal - 1 in
  let n400 := n / 146097 in
  let n := n mod 146097 in
  let year := n400 * 400 + 1 in
  let n100 := n / 36524 in
  let n := n mod 36524 in
  let n4 := n / 1461 in
  let n := n mod 1461 in
  let n1 := n / 365 in
  let n := n mod 365 in
  let year := year + n100 * 100 + n4 * 4 + n1 in
  if (n1 =? 4) || (n100 =? 4) then (year - 1, 12, 31)
  else
    let leapyear := (n1 =? 3) && (negb (n4 =? 24) || (n100 =? 3)) in
    let '(month, day) := month_and_day n leapyear in
    (year, month, day).

(** The ordinal of 1970-01-01. *)
Definition EPOCH_ORDINAL : Z := 719163.

(** The timestamps of 0001-01-01T00:00:00 and 9999-12-31T23:59:59. *)
Definition MIN_TIMESTAMP : Z := -62135596800.
Definition MAX_TIMESTAMP : Z := 253402300799.

(** The date part of [datetime.utcfromtimestamp(t)]: the date of the
    day, counted from 1970-01-01, that second [t] falls in.  Outside the
    years 1 to 9999 the call raises. *)
Definition utcfromtimestamp (t : Z) : outcome (Z * Z * Z) :=
  if (MIN_TIMESTAMP <=? t) && (t <=? MAX_TIMESTAMP)
  then Return (ord2ymd (EPOCH_ORDINAL + t / 86400))
  else Raise ValueError.

Definition digit_char (d : Z) : ascii :=
  ascii_of_nat (48 + Z.to_nat d).

Definition pad2 (n : Z) : string :=
  String (digit_char (n / 10)) (String (digit_char (n mod 10)) "").

Definition pad4 (n : Z) : string :=
  String (digit_char (n / 1000))
    (String (digit_char (n / 100 mod 10)) (pad2 (n mod 100))).

(** [strftime("%Y-%m-%d")] on a date *)
Definition strftime_Y_m_d (date : Z * Z * Z) : string :=
  let '(year, month, day) := date in
  pad4 year +:+ "-" +:+ pad2 month +:+ "-" +:+ pad2 day.

Definition digit_value (c : ascii) : option Z :=
  let n := Z.of_nat (nat_of_ascii c) in
  if (48 <=? n) && (n <=? 57) then Some (n - 48) else None.

(** [\s] of a [str] pattern, on code points below 256. *)
Definition is_space (c : ascii) : bool :=
  let n := Z.of_nat (nat_of_ascii c) in
  ((9 <=? n) && (n <=? 13)) || ((28 <=? n) && (n <=? 32))
  || (n =? 133) || (n =? 160).

Definition to_lower (c : ascii) : ascii :=
  let n := nat_of_ascii c in
  if (65 <=? n)%nat && (n <=? 90)%nat then ascii_of_nat (n + 32) else c.

(** [%d]: [3[0-1]|[1-2]\d|0[1-9]|[1-9]| [1-9]], alternatives tried in this
    order; what follows is [\s+], so a one-digit alternative can only
    succeed where the two-digit ones did not. *)
Definition parse_d (s : string) : option (Z * string) :=
  match s with
  | String c0 rest =>
      match digit_value c0 with
      | Some d0 =>
          match rest with
          | String c1 rest' =>
              match digit_value c1 with
              | Some d1 =>
                  if ((d0 =? 3) && (d1 <=? 1))
                     || (d0 =? 1) || (d0 =? 2)
                     || ((d0 =? 0) && (1 <=? d1))
                  then Some (10 * d0 + d1, rest')
                  else if 1 <=? d0 then Some (d0, rest) else None
              | None => if 1 <=? d0 then Some (d0, rest) else None
              end
          | EmptyString => if 1 <=? d0 then Some (d0, rest) else None
          end
      | None =>
          if Ascii.eqb c0 " "%char then
            match rest with
            | String c1 rest' =>
                match digit_value c1 with
                | Some d1 => if 1 <=? d1 then Some (d1, rest') else None
                | None => None
                end
            | EmptyString => None
            end
          else None
      end
  | EmptyString => None
  end.

Fixpoint skip_spaces (s : string) : string :=
  match s with
  | String c rest => if is_space c then skip_spaces rest else s
  | EmptyString => s
  end.

(** [\s+] *)
Definition parse_spaces (s : string) : option string :=
  match s with
  | String c rest => if is_space c then Some (skip_spaces rest) else None
  | EmptyString => None
  end.

Definition MONTH_ABBR : list string :=
  ["jan"; "feb"; "mar"; "apr"; "may"; "jun";
   "jul"; "aug"; "sep"; "oct"; "nov"; "dec"].

Fixpoint month_index (abbr : string) (names : list string) (i : Z)
    : option Z :=
  match names with
  | [] => None
  | name :: rest =>
      if String.eqb abbr name then Some i else month_index abbr rest (i + 1)
  end.

(** [%b]: an abbreviated month name, whatever the case of its letters. *)
Definition parse_b (s : string) : option (Z * string) :=
  match s with
  | String a (String b (String c rest)) =>
      let abbr := String (to_lower a) (String (to_lower b)
                    (String (to_lower c) "")) in
      match month_index abbr MONTH_ABBR 1 with
      | Some m => Some (m, rest)
      | None => None
      end
  | _ => None
  end.

Definition parse_comma (s : string) : option string :=
  match s with
  | String c rest => if Ascii.eqb c ","%char then Some rest else None
  | EmptyString => None
  end.

(** [%Y]: exactly four digits. *)
Definition parse_Y (s : string) : option (Z * string) :=
  match s with
  | String a (String b (String c (String d rest))) =>
      match digit_value a, digit_value b, digit_value c, digit_value d with
      | Some a, Some b, Some c, Some d =>
          Some (1000 * a + 100 * b + 10 * c + d, rest)
      | _, _, _, _ => None
      end
  | _ => None
  end.

(** [datetime.strptime(s, "%d %b, %Y")]: the date, or [None] where the
    call raises [ValueError] (no match, text left over, or no such day). *)
Definition strptime_d_b_Y (s : string) : option (Z * Z * Z) :=
  match parse_d s with
  | None => None
  | Some (day, s1) =>
  match parse_spaces s1 with
  | None => None
  | Some s2 =>
  match parse_b s2 with
  | None => None
  | Some (month, s3) =>
  match parse_comma s3 with
  | None => None
  | Some s4 =>
  match parse_spaces s4 with
  | None => None
  | Some s5 =>
  match parse_Y s5 with
  | None => None
  | Some (year, s6) =>
      if String.eqb s6 "" && valid_date year month day
      then Some (year, month, day)
      else None
  end end end end end end.

(** [format_date]: whatever the [try] block raises ([ValueError] from
    [strptime], [TypeError] when [date_str] is not a string) is caught. *)
Definition format_date (date_str : JSON) : string :=
  match date_str with
  | JStr s =>
      match strptime_d_b_Y s with
      | Some dt => strftime_Y_m_d dt
      | None => "Unknown Release Date"
      end
  | _ => "Unknown Release Date"
  end.

(** ** The request function *)

Definition MIN_WAIT_SECONDS : Z := 1.
Definition MAX_WAIT_SECONDS : Z := 60.
Definition MAX_ATTEMPTS : Z := 10.

(** [e.response is not None and e.response.status_code == 429] *)
Definition is_429 (e : PyExn) : bool :=
  match e with
  | RequestException (Some r) => status_code r =? 429
  | _ => false
  end.

Definition e_response_content (e : PyExn) : option string :=
  match e with
  | RequestException (Some r) => Some (content r)
  | _ => None
  end.

Section Run.

(** The network of a run: [server n url] is what the [n]-th call of
    [requests.get] of the run (counted from 0) does when it asks for
    [url]. *)
Variable server : nat -> string -> NetResult.

(** Python's [repr] of a list or a dict, which [str] falls back to; the
    script never depends on its result. *)
Variable py_repr : JSON -> string.

(** [os.getenv('STEAM_API_KEY')] and [os.getenv('STEAM_ID')] *)
Variable STEAM_API_KEY : option string.
Variable STEAM_ID : option string.

Definition requests_get (url : string) : M Response :=
  fun s =>
    let s' := {| response_cache := response_cache s;
                 net_calls := net_calls s ++ [url];
                 sleeps := sleeps s; console := console s;
                 csvfile := csvfile s |} in
    match server (length (net_calls s)) url with
    | NetResponse r => (Return r, s')
    | NetError e_response => (Raise (RequestException e_response), s')
    end.

(** The body of [request], with the recursive call abstracted as [retry]. *)
Definition request_body
    (retry : string -> bool -> Z -> Z -> M (option Response))
    (url : string) (ignore_error : bool) (wait_seconds attempts : Z)
    : M (option Response) :=
  cached <- cache_lookup url ;;
  match cached with
  | Some response => ret (Some response)
  | None =>
      try_except
        ((if 0 <? wait_seconds
          then print (Waiting wait_seconds url) ;; time_sleep wait_seconds
          else ret tt) ;;
         response <- requests_get url ;;
         raise_for_status response ;;
         cache_store url response ;;
         ret (Some response))
        is_RequestException
        (fun e =>
           if is_429 e then
             if MAX_ATTEMPTS <? attempts + 1 then
               print (ReachedMaxAttempts url) ;;
               ret None
             else
               let wait_time_seconds :=
                 if 0 <? wait_seconds
                 then Z.min (wait_seconds * 2) MAX_WAIT_SECONDS
                 else MIN_WAIT_SECONDS in
               print (Got429 url wait_time_seconds) ;;
               retry url ignore_error wait_time_seconds (attempts + 1)
           else
             (if negb ignore_error
              then print (FetchException url e) ;;
                   print (ResponseContent (e_response_content e))
              else ret tt) ;;
             raise e)
  end.

(** The recursion of [request] is on [attempts], which grows by one per
    call and stops the recursion once it passes [MAX_ATTEMPTS]; [fuel]
    counts the recursive calls still possible. *)
Fixpoint request_loop (fuel : nat)
    : string -> bool -> Z -> Z -> M (option Response) :=
  request_body
    match fuel with
    | O => fun _ _ _ _ => ret None
    | S fuel' => request_loop fuel'
    end.

Definition request (url : string) (ignore_error : bool)
    (wait_seconds attempts : Z) : M (option Response) :=
  request_loop (Z.to_nat (MAX_ATTEMPTS - attempts))
    url ignore_error wait_seconds attempts.

(** [str(v)], as the f-strings and [str(appid)] apply it. *)
Definition py_str (v : JSON) : string :=
  match v with
  | JNull => "None"
  | JBool b => if b then "True" else "False"
  | JInt n => pretty n
  | JStr s => s
  | JArr _ | JObj _ => py_repr v
  end.

(** An environment variable inside an f-string. *)
Definition env_str (v : option string) : string :=
  match v with
  | Some s => s
  | None => "None"
  end.

Definition owned_games_url (steam_id : string) (api_key : option string)
    : string :=
  "https://api.steampowered.com/IPlayerService/GetOwnedGames/v0001/?key="
  +:+ env_str api_key +:+ "&steamid=" +:+ steam_id
  +:+ "&include_appinfo=true&include_played_free_games=true&format=json".

Definition get_owned_games (steam_id : string) (api_key : option string)
    : M JSON :=
  let url := owned_games_url steam_id api_key in
  response <- request url false 0 0 ;;
  lift (let* data := response_json response in
        let* response_field := py_getitem data "response" in
        py_getitem response_field "games").

Definition achievements_url (appid : JSON) (steam_id : string)
    (api_key : option string) : string :=
  "https://api.steampowered.com/ISteamUserStats/GetPlayerAchievements/v0001/?appid="
  +:+ py_str appid +:+ "&key=" +:+ env_str api_key
  +:+ "&steamid=" +:+ steam_id.

(** The opening shared by the four extractors:
    [try: response = request(url, True)] /
    [except requests.RequestException: return sentinel], then the rest of
    the function on [response]. *)
Definition fetch_or_return {A} (url : string) (sentinel : A)
    (rest : option Response -> outcome A) : M A :=
  fetched <- try_except
               (response <- request url true 0 0 ;; ret (inl response))
               is_RequestException
               (fun _ => ret (inr sentinel)) ;;
  match fetched with
  | inl response => lift (rest response)
  | inr early => ret early
  end.

(** [a and b], where [b] is evaluated only when [a] holds. *)
Definition py_and (a : outcome bool) (b : outcome bool) : outcome bool :=
  match a with
  | Return true => b
  | Return false => Return false
  | Raise e => Raise e
  end.

(** [is_game_beaten] from [data = response.json()] on. *)
Definition beaten_from (response : option Response) : outcome bool :=
  let* data := response_json response in
  let* has_achievements :=
    py_and (py_contains "playerstats" data)
      (let* playerstats := py_getitem data "playerstats" in
       py_contains "achievements" playerstats) in
  if has_achievements then
    let* playerstats := py_getitem data "playerstats" in
    let* achievements := py_getitem playerstats "achievements" in
    let* total_achievements := py_len achievements in
    let* items := py_iter achievements in
    let* unlocked_achievements := sum_achieved items 0 in
    Return (at_least_half unlocked_achievements total_achievements)
  else Return false.

Definition is_game_beaten (appid : JSON) (steam_id : string)
    (api_key : option string) : M bool :=
  let url := achievements_url appid steam_id api_key in
  fetch_or_return url false beaten_from.

Definition review_url (appid : JSON) : string :=
  "https://store.steampowered.com/appreviews/" +:+ py_str appid
  +:+ "?json=1&num_per_page=1".

(** [get_review_summary] from [data = response.json()] on. *)
Definition review_summary_from (response : option Response) : outcome JSON :=
  let* data := response_json response in
  let* has_summary := py_contains "query_summary" data in
  if has_summary then
    let* query_summary := py_getitem data "query_summary" in
    py_getitem query_summary "review_score_desc"
  else Return (JStr "No Reviews").

Definition get_review_summary (appid : JSON) : M JSON :=
  let url := review_url appid in
  fetch_or_return url (JStr "Error Fetching Reviews") review_summary_from.

Definition metacritic_url (appid : JSON) : string :=
  "https://store.steampowered.com/api/appdetails?appids=" +:+ py_str appid.

(** [str(appid) in data and key in data[str(appid)]['data']] *)
Definition appdetails_has (appid : JSON) (data : JSON) (key : string)
    : outcome bool :=
  py_and (py_contains (py_str appid) data)
    (let* entry := py_getitem data (py_str appid) in
     let* details := py_getitem entry "data" in
     py_contains key details).

(** [data[str(appid)]['data'][key][field]] *)
Definition appdetails_field (appid : JSON) (data : JSON) (key field : string)
    : outcome JSON :=
  let* entry := py_getitem data (py_str appid) in
  let* details := py_getitem entry "data" in
  let* x := py_getitem details key in
  py_getitem x field.

(** [get_metacritic_score] from [data = response.json()] on. *)
Definition metacritic_score_from (appid : JSON) (response : option Response)
    : outcome JSON :=
  let* data := response_json response in
  let* has_score := appdetails_has appid data "metacritic" in
  if has_score
  then appdetails_field appid data "metacritic" "score"
  else Return (JStr "No Score").

Definition get_metacritic_score (appid : JSON) : M JSON :=
  let url := metacritic_url appid in
  fetch_or_return url (JStr "Error Fetching Metacritic Score")
    (metacritic_score_from appid).

Definition release_date_url (appid : JSON) : string :=
  "https://store.steampowered.com/api/appdetails?appids=" +:+ py_str appid.

(** [get_release_date] from [data = response.json()] on. *)
Definition release_date_from (appid : JSON) (response : option Response)
    : outcome string :=
  let* data := response_json response in
  let* has_date := appdetails_has appid data "release_date" in
  if has_date then
    let* date := appdetails_field appid data "release_date" "date" in
    Return (format_date date)
  else Return "Unknown Release Date".

Definition get_release_date (appid : JSON) : M string :=
  let url := release_date_url appid in
  fetch_or_return url "Error Fetching Release Date"
    (release_date_from appid).

(** ** The report *)

(** [open('steam_library.csv', 'w')] and [writer.writeheader()]: the file
    is created, or emptied, and holds no data row. *)
Definition open_csv : M unit :=
  fun s => (Return tt,
            {| response_cache := response_cache s; net_calls := net_calls s;
               sleeps := sleeps s; console := console s;
               csvfile := Some [] |}).

Definition writerow (row : Row) : M unit :=
  fun s => (Return tt,
            {| response_cache := response_cache s; net_calls := net_calls s;
               sleeps := sleeps s; console := console s;
               csvfile := Some (default [] (csvfile s) ++ [row])%list |}).

(** [datetime.utcfromtimestamp(t).strftime('%Y-%m-%d') if t else
    'Never Played'] *)
Definition last_played (last_played_timestamp : JSON) : outcome string :=
  if py_truthy last_played_timestamp then
    match int_value last_played_timestamp with
    | Some t =>
        let* date := utcfromtimestamp t in
        Return (strftime_Y_m_d date)
    | None => Raise TypeError
    end
  else Return "Never Played".

(** The four extractor calls and the [writerow] of the loop's [try]. *)
Definition enrich_and_write (steam_id : string) (appid name : JSON)
    (playtime_minutes : JSON) (last_played_date : string) : M unit :=
  review_rating <- get_review_summary appid ;;
  metacritic_score <- get_metacritic_score appid ;;
  release_date <- get_release_date appid ;;
  beaten <- is_game_beaten appid steam_id STEAM_API_KEY ;;
  writerow {| Name := name;
              Review_Rating := review_rating;
              Metacritic_Score := metacritic_score;
              Playtime_in_Minutes := playtime_minutes;
              Date_Released := release_date;
              Last_Played_Added := last_played_date;
              Beaten := beaten |}.

(** The reads at the top of the loop body, before its [try]:
    [game['appid']], [game['name']], [game.get('playtime_forever', 0)] and
    the last-played date. *)
Definition read_game (game : JSON) : outcome (JSON * JSON * JSON * string) :=
  let* appid := py_getitem game "appid" in
  let* name := py_getitem game "name" in
  let* playtime_minutes := py_get game "playtime_forever" (JInt 0) in
  let* last_played_timestamp := py_get game "rtime_last_played" (JInt 0) in
  let* last_played_date := last_played last_played_timestamp in
  Return (appid, name, playtime_minutes, last_played_date).

(** One iteration of the loop of [main]. *)
Definition process_game (steam_id : string) (game : JSON) : M unit :=
  fields <- lift (read_game game) ;;
  let '(appid, name, playtime_minutes, last_played_date) := fields in
  try_except
    (enrich_and_write steam_id appid name playtime_minutes last_played_date)
    is_Exception
    (fun e => print (GameException appid name e)).

(** [for game in tqdm(owned_games, ...)] on the items of [owned_games]. *)
Fixpoint process_games (steam_id : string) (games : list JSON) : M unit :=
  match games with
  | [] => ret tt
  | game :: rest =>
      process_game steam_id game ;;
      process_games steam_id rest
  end.

(** [main]; the script calls it at top level, so an exception it raises
    is uncaught: the interpreter prints the traceback and exits. *)
Definition main : M unit :=
  match STEAM_ID with
  | None => print NoSteamId
  | Some steam_id =>
      if String.eqb steam_id "" then print NoSteamId
      else
        owned_games <- get_owned_games steam_id STEAM_API_KEY ;;
        if negb (py_truthy owned_games) then print NoOwnedGames
        else
          open_csv ;;
          games <- lift (py_iter owned_games) ;;
          process_games steam_id games
  end.

End Run.

(** ** Vocabulary for the statements *)

(** What the [try] block of [request] makes of a reply: the response it
    stores and returns, or the exception its handler receives. *)
Definition reply_outcome (reply : NetResult) : Response + PyExn :=
  match reply with
  | NetResponse r =>
      if (400 <=? status_code r) && (status_code r <? 600)
      then inr (RequestException (Some r))
      else inl r
  | NetError e_response => inr (RequestException e_response)
  end.

(** A reply that the handler of [request] treats as HTTP 429. *)
Definition reply_429 (reply : NetResult) : bool :=
  match reply_outcome reply with
  | inr e => is_429 e
  | inl _ => false
  end.

(** A response that [raise_for_status] lets through. *)
Definition succeeded (r : Response) : bool :=
  negb ((400 <=? status_code r) && (status_code r <? 600)).

(** The wait [request] computes after a 429 from the wait it was given. *)
Definition next_wait (wait_seconds : Z) : Z :=
  if 0 <? wait_seconds
  then Z.min (wait_seconds * 2) MAX_WAIT_SECONDS
  else MIN_WAIT_SECONDS.

(** The next [n] waits after [wait_seconds]. *)
Fixpoint waits_after (wait_seconds : Z) (n : nat) : list Z :=
  match n with
  | O => []
  | S n' => next_wait wait_seconds :: waits_after (next_wait wait_seconds) n'
  end.

Definition backoff_waits : list Z := [1; 2; 4; 8; 16; 32; 60; 60; 60; 60].

(** The states [request] passes through. *)
Definition printed (l : LogLine) (s : State) : State := snd (print l s).

Definition waited (wait_seconds : Z) (url : string) (s : State) : State :=
  if 0 <? wait_seconds
  then snd (time_sleep wait_seconds (printed (Waiting wait_seconds url) s))
  else s.

Definition sent (url : string) (s : State) : State :=
  {| response_cache := response_cache s; net_calls := net_calls s ++ [url];
     sleeps := sleeps s; console := console s; csvfile := csvfile s |}.

Definition stored (url : string) (r : Response) (s : State) : State :=
  snd (cache_store url r s).

Definition reported (ignore_error : bool) (url : string) (e : PyExn)
    (s : State) : State :=
  if negb ignore_error
  then printed (ResponseContent (e_response_content e))
         (printed (FetchException url e) s)
  else s.

(** The number of unlocked achievements among the listed ones. *)
Definition unlocked (flags : list bool) : Z :=
  Z.of_nat (length (List.filter (fun b : bool => b) flags)).

(** [ach] is an achievement record whose [achieved] field is 1 or 0. *)
Definition achieved_is (ach : JSON) (flag : bool) : Prop :=
  py_getitem ach "achieved" = Return (JInt (if flag then 1 else 0)).

(** The check of [month_and_day] on one day of a year: the month and day
    exist and lie that many days into the year. *)
Definition month_and_day_ok (leapyear : bool) (n : Z) : bool :=
  let '(month, day) := month_and_day n leapyear in
  (1 <=? month) && (month <=? 12) && (1 <=? day)
  && (day <=? days_in_month_of leapyear month)
  && (days_before_month_of leapyear month + day =? n + 1).

(** ** The date format, declaratively *)

(** A run of whitespace characters. *)
Fixpoint only_spaces (s : string) : bool :=
  match s with
  | EmptyString => true
  | String c rest => is_space c && only_spaces rest
  end.

(** A non-empty run of whitespace characters. *)
Definition blank (s : string) : bool :=
  match s with
  | EmptyString => false
  | String _ _ => only_spaces s
  end.

Fixpoint lower (s : string) : string :=
  match s with
  | EmptyString => EmptyString
  | String c rest => String (to_lower c) (lower rest)
  end.

(** The spellings of a day of the month: two digits, or for the days up
    to 9 one digit, alone or after a space. *)
Definition day_text (day : Z) (text : string) : Prop :=
  1 <= day <= 31
  /\ (text = pad2 day
      \/ (day <= 9
          /\ (text = String (digit_char day) ""
              \/ text = String " " (String (digit_char day) "")))).

(** The spellings of a month: its three-letter English abbreviation in
    any mix of cases. *)
Definition month_text (month : Z) (text : string) : Prop :=
  1 <= month <= 12
  /\ lower text = nth (Z.to_nat (month - 1)) MONTH_ABBR "".

(** [s] spells the date in the format "DD Mon, YYYY": day, whitespace,
    month, a comma, whitespace, a four-digit year; and the date exists. *)
Definition in_date_format (s : string) (year month day : Z) : Prop :=
  exists day_part gap1 month_part gap2,
    s = day_part +:+ gap1 +:+ month_part +:+ "," +:+ gap2 +:+ pad4 year
    /\ day_text day day_part
    /\ blank gap1 = true
    /\ month_text month month_part
    /\ blank gap2 = true
    /\ valid_date year month day = true.

(** The state changes the script makes: calls of [request] (with the
    prints, sleeps, network calls and cache writes inside them), its own
    prints, and the two operations on the output file. *)
Inductive step (server : nat -> string -> NetResult) : State -> State -> Prop :=
| step_request url ignore_error wait_seconds attempts s :
    step server s
      (snd (request server url ignore_error wait_seconds attempts s))
| step_print l s : step server s (printed l s)
| step_open_csv s : step server s (snd (open_csv s))
| step_writerow row s : step server s (snd (writerow row s)).

(** What a call leaves behind, relative to the state it started in: the
    output file is untouched; the network log grows by requests for [url]
    only; cache entries are never removed or replaced; a new entry is the
    response this call fetched, returned and found successful. *)
Record request_post (server : nat -> string -> NetResult)
    (url : string) (s : State)
    (res : outcome (option Response) * State) : Prop := {
  post_csvfile : csvfile (snd res) = csvfile s;
  post_net_calls :
    exists m, net_calls (snd res) = (net_calls s ++ replicate m url)%list;
  post_cache_kept :
    forall u r, response_cache s !! u = Some r ->
                response_cache (snd res) !! u = Some r;
  post_cache_new :
    forall u r, response_cache (snd res) !! u = Some r ->
      response_cache s !! u = Some r
      \/ (u = url /\ succeeded r = true /\ fst res = Return (Some r)
          /\ exists n : nat,
               (length (net_calls s) <= n < length (net_calls (snd res)))%nat
               /\ server n url = NetResponse r);
  post_returned :
    forall r, fst res = Return (Some r) ->
              response_cache (snd res) !! url = Some r;
  post_no_response :
    (forall r, fst res <> Return (Some r)) ->
    response_cache (snd res) = response_cache s;
  post_console :
    exists lines, console (snd res) = (console s ++ lines)%list
}.

(** Every cache entry is a response the network gave for its URL during
    the run, and one that [raise_for_status] let through. *)
Definition cache_sound (server : nat -> string -> NetResult) (s : State)
    : Prop :=
  forall u r, response_cache s !! u = Some r ->
    succeeded r = true
    /\ exists n : nat, net_calls s !! n = Some u /\ server n u = NetResponse r.

(** [s'] comes after [s] in a run that did not touch the output file:
    the console has only grown. *)
Definition extends (s s' : State) : Prop :=
  csvfile s' = csvfile s
  /\ exists lines, console s' = (console s ++ lines)%list.

(** The reads at the top of the loop body succeed on [game]. *)
Definition readable (game : JSON) : bool :=
  match read_game game with
  | Return _ => true
  | Raise _ => false
  end.

(** The enrichment of [game] (the four extractors and the row write inside
    the loop's [try]) raises when run in state [s]. *)
Definition enrichment_raises (server : nat -> string -> NetResult)
    (py_repr : JSON -> string) (api_key : option string) (steam_id : string)
    (game : JSON) (s : State) : bool :=
  match read_game game with
  | Return (appid, name, playtime_minutes, last_played_date) =>
      match fst (enrich_and_write server py_repr api_key steam_id
                   appid name playtime_minutes last_played_date s) with
      | Raise _ => true
      | Return _ => false
      end
  | Raise _ => false
  end.

(** The games of the list whose enrichment raises, each run in the state
    the loop reaches it in. *)
Fixpoint failed_games (server : nat -> string -> NetResult)
    (py_repr : JSON -> string) (api_key : option string) (steam_id : string)
    (games : list JSON) (s : State) : list JSON :=
  match games with
  | [] => []
  | game :: rest =>
      ((if enrichment_raises server py_repr api_key steam_id game s
        then [game] else [])
       ++ failed_games server py_repr api_key steam_id rest
            (snd (process_game server py_repr api_key steam_id game s)))%list
  end.

(** The line the loop prints for a game it skips names the game's
    [appid] and [name]. *)
Definition logged_failure (game : JSON) (s : State) : Prop :=
  exists appid name e,
    py_getitem game "appid" = Return appid
    /\ py_getitem game "name" = Return name
    /\ In (GameException appid name e) (console s).

(** ** Example worlds *)

Definition too_many_requests : Response :=
  {| status_code := 429; content := "Too Many Requests"; json := None |}.

Definition ok_response (data : JSON) : Response :=
  {| status_code := 200; content := ""; json := Some data |}.

(** A server that answers every request with HTTP 429. *)
Definition always_429 : nat -> string -> NetResult :=
  fun _ _ => NetResponse too_many_requests.

(** A server that answers every request with the same 200 response. *)
Definition always_ok (data : JSON) : nat -> string -> NetResult :=
  fun _ _ => NetResponse (ok_response data).

Definition no_repr : JSON -> string := fun _ => "".

Definition internal_server_error : Response :=
  {| status_code := 500; content := "Internal Server Error"; json := None |}.

(** A server that answers every request with HTTP 500. *)
Definition always_500 : nat -> string -> NetResult :=
  fun _ _ => NetResponse internal_server_error.

(** A server whose first three replies are an empty JSON object and whose
    later replies are pages that are not JSON. *)
Definition three_then_garbage : nat -> string -> NetResult :=
  fun n _ =>
    if (n <? 3)%nat
    then NetResponse (ok_response (JObj []))
    else NetResponse {| status_code := 200; content := "<html>";
                        json := None |}.

Definition game_10 : JSON :=
  JObj [("appid", JInt 10); ("name", JStr "Counter-Strike");
        ("playtime_forever", JInt 32); ("rtime_last_played", JInt 0)].

Definition game_440 : JSON :=
  JObj [("appid", JInt 440); ("name", JStr "Team Fortress 2");
        ("playtime_forever", JInt 1200);
        ("rtime_last_played", JInt 1584748800)].

(** A server whose first reply is HTTP 429 and whose later replies are the
    same 200 response. *)
Definition retry_then_ok (data : JSON) : nat -> string -> NetResult :=
  fun n _ =>
    match n with
    | O => NetResponse too_many_requests
    | S _ => NetResponse (ok_response data)
    end.

(** App details of application 440, as the store returns them. *)
Definition appdetails_440 : JSON :=
  JObj [("440",
         JObj [("success", JBool true);
               ("data",
                JObj [("metacritic", JObj [("score", JInt 92)]);
                      ("release_date",
                       JObj [("coming_soon", JBool false);
                             ("date", JStr "10 Oct, 2007")])])])].

(** Player achievements with [unlocked] of [total] achieved. *)
Definition achievements_data (flags : list bool) : JSON :=
  JObj [("playerstats",
         JObj [("steamID", JStr "0");
               ("achievements",
                JArr (map (fun b : bool =>
                             JObj [("apiname", JStr "A");
                                   ("achieved", JInt (if b then 1 else 0))])
                        flags))])].

(** A server for one whole run: the owned-games list with application
    440, then its review summary, its app details, and its achievements. *)
Definition library_of_440 : nat -> string -> NetResult :=
  fun n _ =>
    match n with
    | 0%nat =>
        NetResponse
          (ok_response (JObj [("response",
                               JObj [("game_count", JInt 1);
                                     ("games", JArr [game_440])])]))
    | 1%nat =>
        NetResponse
          (ok_response
             (JObj [("success", JInt 1);
                    ("query_summary",
                     JObj [("review_score", JInt 8);
                           ("review_score_desc", JStr "Very Positive")])]))
    | 2%nat => NetResponse (ok_response appdetails_440)
    | _ =>
        NetResponse
          (ok_response (achievements_data [true; true; false; false]))
    end.

(** ** Vocabulary for the further properties *)

(** The seconds slept in all. *)
Definition total_seconds (waits : list Z) : Z := foldr Z.add 0 waits.

(** App details of a delisted application, as the store returns them. *)
Definition appdetails_unavailable : JSON :=
  JObj [("440", JObj [("success", JBool false)])].

Definition review_summary_data : JSON :=
  JObj [("success", JInt 1);
        ("query_summary",
         JObj [("review_score", JInt 8);
               ("review_score_desc", JStr "Very Positive")])].

Definition owned_games_data : JSON :=
  JObj [("response", JObj [("game_count", JInt 0)])].

(** [row] carries what the loop read from [game]: its name, its playtime
    and its last-played date. *)
Definition row_of_game (row : Row) (game : JSON) : Prop :=
  exists appid,
    read_game game
    = Return (appid, Name row, Playtime_in_Minutes row,
              Last_Played_Added row).

(** The games of the list whose enrichment does not raise, each run in
    the state the loop reaches it in. *)
Fixpoint written_games (server : nat -> string -> NetResult)
    (py_repr : JSON -> string) (api_key : option string) (steam_id : string)
    (games : list JSON) (s : State) : list JSON :=
  match games with
  | [] => []
  | game :: rest =>
      ((if enrichment_raises server py_repr api_key steam_id game s
        then [] else [game])
       ++ written_games server py_repr api_key steam_id rest
            (snd (process_game server py_repr api_key steam_id game s)))%list
  end.

(** A game record without a name. *)
Definition nameless_game : JSON :=
  JObj [("appid", JInt 20); ("playtime_forever", JInt 5)].

Definition is_digit (c : ascii) : bool :=
  match digit_value c with
  | Some _ => true
  | None => false
  end.

(** Ten characters: four digits, a dash, two digits, a dash, two digits. *)
Definition is_iso_date (s : string) : bool :=
  match s with
  | String y1 (String y2 (String y3 (String y4 (String h1
      (String m1 (String m2 (String h2 (String d1 (String d2
        EmptyString))))))))) =>
      is_digit y1 && is_digit y2 && is_digit y3 && is_digit y4
      && Ascii.eqb h1 "-"%char
      && is_digit m1 && is_digit m2
      && Ascii.eqb h2 "-"%char
      && is_digit d1 && is_digit d2
  | _ => false
  end.

(** Going from [s] to [s'] took at most [requests] network requests and
    at most [seconds] seconds of sleep. *)
Definition costs (s s' : State) (requests : nat) (seconds : Z) : Prop :=
  exists calls waits,
    net_calls s' = (net_calls s ++ calls)%list
    /\ (length calls <= requests)%nat
    /\ sleeps s' = (sleeps s ++ waits)%list
    /\ total_seconds waits <= seconds.

(** * Properties *)

Local Open Scope list_scope.

(** ** The shape of [request] *)

Section RequestFacts.

Variable server : nat -> string -> NetResult.

Lemma request_body_ext retry1 retry2 url ignore_error wait_seconds attempts s :
  ((MAX_ATTEMPTS <? attempts + 1) = false ->
   forall w s', retry1 url ignore_error w (attempts + 1) s'
                = retry2 url ignore_error w (attempts + 1) s') ->
  request_body server retry1 url ignore_error wait_seconds attempts s
  = request_body server retry2 url ignore_error wait_seconds attempts s.
Proof.
  intros Hretry. unfold request_body, bind, try_except, cache_lookup.
  destruct (response_cache s !! url); [reflexivity|].
  match goal with
  | |- match ?body with _ => _ end = _ => destruct body as [[r|e] s1]
  end; [reflexivity|].
  destruct (is_RequestException e); [|reflexivity].
  destruct (is_429 e); [|reflexivity].
  destruct (MAX_ATTEMPTS <? attempts + 1) eqn:Hmax; [reflexivity|].
  destruct (print _ s1) as [[[]|e'] s2]; [|reflexivity].
  apply Hretry. reflexivity.
Qed.

(** [request] satisfies the recursive equation of the source: its body,
    with itself as the recursive call. *)
Lemma request_unfold url ignore_error wait_seconds attempts s :
  request server url ignore_error wait_seconds attempts s
  = request_body server (request server)
      url ignore_error wait_seconds attempts s.
Proof.
  unfold request.
  destruct (MAX_ATTEMPTS <? attempts + 1) eqn:Hmax.
  - destruct (Z.to_nat (MAX_ATTEMPTS - attempts));
      apply request_body_ext; congruence.
  - apply Z.ltb_ge in Hmax.
    replace (Z.to_nat (MAX_ATTEMPTS - attempts))
      with (S (Z.to_nat (MAX_ATTEMPTS - (attempts + 1)))) by lia.
    apply request_body_ext. reflexivity.
Qed.

(** One call of [request], case by case. *)
Lemma request_step url ignore_error wait_seconds attempts s :
  request server url ignore_error wait_seconds attempts s
  = match response_cache s !! url with
    | Some r => (Return (Some r), s)
    | None =>
        let s1 := sent url (waited wait_seconds url s) in
        match reply_outcome (server (length (net_calls s)) url) with
        | inl r => (Return (Some r), stored url r s1)
        | inr e =>
            if is_429 e then
              if MAX_ATTEMPTS <? attempts + 1
              then (Return None, printed (ReachedMaxAttempts url) s1)
              else request server url ignore_error (next_wait wait_seconds)
                     (attempts + 1)
                     (printed (Got429 url (next_wait wait_seconds)) s1)
            else (Raise e, reported ignore_error url e s1)
        end
    end.
Proof.
  rewrite request_unfold.
  unfold request_body, bind, try_except, cache_lookup.
  destruct (response_cache s !! url) as [r|]; [reflexivity|].
  assert (Hlen : length (net_calls (waited wait_seconds url s))
                 = length (net_calls s)).
  { unfold waited. destruct (0 <? wait_seconds); reflexivity. }
  assert (Hpre :
    (if 0 <? wait_seconds
     then bind (print (Waiting wait_seconds url))
            (fun _ => time_sleep wait_seconds)
     else ret tt) s = (Return tt, waited wait_seconds url s)).
  { unfold waited. destruct (0 <? wait_seconds); reflexivity. }
  unfold bind in Hpre. rewrite Hpre. clear Hpre.
  unfold requests_get. rewrite Hlen.
  unfold reply_outcome, raise_for_status, raise, ret.
  destruct (server (length (net_calls s)) url) as [r|er]; simpl.
  - destruct ((400 <=? status_code r) && (status_code r <? 600)); simpl.
    + destruct (status_code r =? 429); [|destruct ignore_error; reflexivity].
      destruct (MAX_ATTEMPTS <? attempts + 1); reflexivity.
    + reflexivity.
  - destruct er as [r|]; simpl;
      [destruct (status_code r =? 429)|];
      try (destruct ignore_error; reflexivity).
    destruct (MAX_ATTEMPTS <? attempts + 1); reflexivity.
Qed.

(** Induction over the calls of [request]: a property of a call follows
    from the four ways a call ends and from the same property of the
    recursive call. *)
Lemma request_induction url ignore_error
    (P : Z -> Z -> State -> outcome (option Response) * State -> Prop) :
  (forall w a s r,
      response_cache s !! url = Some r -> P w a s (Return (Some r), s)) ->
  (forall w a s r,
      response_cache s !! url = None ->
      reply_outcome (server (length (net_calls s)) url) = inl r ->
      P w a s (Return (Some r), stored url r (sent url (waited w url s)))) ->
  (forall w a s e,
      response_cache s !! url = None ->
      reply_outcome (server (length (net_calls s)) url) = inr e ->
      is_429 e = false ->
      P w a s (Raise e, reported ignore_error url e
                          (sent url (waited w url s)))) ->
  (forall w a s e,
      response_cache s !! url = None ->
      reply_outcome (server (length (net_calls s)) url) = inr e ->
      is_429 e = true -> MAX_ATTEMPTS < a + 1 ->
      P w a s (Return None,
               printed (ReachedMaxAttempts url) (sent url (waited w url s)))) ->
  (forall w a s e res,
      response_cache s !! url = None ->
      reply_outcome (server (length (net_calls s)) url) = inr e ->
      is_429 e = true -> a + 1 <= MAX_ATTEMPTS ->
      P (next_wait w) (a + 1)
        (printed (Got429 url (next_wait w)) (sent url (waited w url s))) res ->
      P w a s res) ->
  forall w a s, P w a s (request server url ignore_error w a s).
Proof.
  intros Hcached Hok Herr Hstop Hretry w a.
  remember (Z.to_nat (MAX_ATTEMPTS - a)) as n eqn:Hn.
  revert w a Hn.
  induction n as [|n IH]; intros w a Hn s; rewrite request_step;
    destruct (response_cache s !! url) as [r|] eqn:Hc; auto; cbv zeta;
    destruct (reply_outcome (server (length (net_calls s)) url))
      as [r|e] eqn:Hr; auto;
    destruct (is_429 e) eqn:H429; eauto;
    destruct (Z.ltb_spec MAX_ATTEMPTS (a + 1)) as [Hlt|Hge]; eauto.
  - lia.
  - eapply Hretry; eauto. apply IH. lia.
Qed.

End RequestFacts.

(** ** What a call of [request] does to the state *)

Ltac unfold_states :=
  unfold reported, stored, waited, printed, sent, print, time_sleep,
    cache_store in *.

Section RequestEffects.

Variable server : nat -> string -> NetResult.

Lemma next_wait_pos w : (0 <? next_wait w) = true.
Proof.
  unfold next_wait, MAX_WAIT_SECONDS, MIN_WAIT_SECONDS.
  destruct (Z.ltb_spec 0 w); apply Z.ltb_lt; lia.
Qed.

Lemma next_wait_bounds w :
  MIN_WAIT_SECONDS <= next_wait w <= MAX_WAIT_SECONDS.
Proof.
  unfold next_wait, MAX_WAIT_SECONDS, MIN_WAIT_SECONDS.
  destruct (Z.ltb_spec 0 w); lia.
Qed.

(** The schedule of the claim is the doubling, capped recurrence started
    from no wait. *)
Lemma backoff_waits_eq : backoff_waits = waits_after 0 10.
Proof. reflexivity. Qed.

Lemma reply_outcome_inl reply r :
  reply_outcome reply = inl r -> reply = NetResponse r /\ succeeded r = true.
Proof.
  unfold reply_outcome, succeeded. destruct reply as [r'|er]; [|discriminate].
  destruct ((400 <=? status_code r') && (status_code r' <? 600)) eqn:Hcode;
    [discriminate|].
  intros [= <-]. rewrite Hcode. split; reflexivity.
Qed.

Lemma request_effects url ignore_error w a s :
  request_post server url s (request server url ignore_error w a s).
Proof.
  apply (request_induction server url ignore_error
           (fun _ _ s res => request_post server url s res)); clear w a s.
  - intros w a s r Hc. split; simpl; auto.
    + exists 0%nat. simpl. by rewrite app_nil_r.
    + by intros r' [= ->].
    + exists []. by rewrite app_nil_r.
  - intros w a s r Hc Hr. apply reply_outcome_inl in Hr as [Hr Hs].
    split; unfold_states; destruct (0 <? w); simpl.
    all: try reflexivity.
    all: try (by exists 1%nat).
    all: try (intros u r' Hu; destruct (decide (url = u)) as [->|Hne];
              [congruence | by rewrite lookup_insert_ne]).
    all: try (intros u r' Hu; destruct (decide (url = u)) as [<-|Hne];
              [rewrite lookup_insert_eq in Hu; injection Hu as <-; right;
               repeat split; auto; exists (length (net_calls s));
               rewrite length_app; simpl; split; [lia | done]
              | rewrite lookup_insert_ne in Hu by done; by left]).
    all: try (intros r' [= ->]; apply lookup_insert_eq).
    all: try (intros Hne; exfalso; by eapply Hne).
    all: try (by exists []; rewrite app_nil_r).
    all: try (by eexists).
  - intros w a s e Hc Hr H429.
    split; unfold_states; destruct ignore_error, (0 <? w); simpl.
    all: try reflexivity.
    all: try (by exists 1%nat).
    all: try (intros; by auto).
    all: try (intros; discriminate).
    all: try (by exists []; rewrite app_nil_r).
    all: try (rewrite <- ?app_assoc; by eexists).
  - intros w a s e Hc Hr H429 Hmax.
    split; unfold_states; destruct (0 <? w); simpl.
    all: try reflexivity.
    all: try (by exists 1%nat).
    all: try (intros; by auto).
    all: try (intros; discriminate).
    all: try (rewrite <- ?app_assoc; by eexists).
  - intros w a s e res Hc Hr H429 Hmax
      [Hcsv [m Hnet] Hkept Hnew Hret Hnone [lines Hlines]].
    assert (Hcache : response_cache
              (printed (Got429 url (next_wait w)) (sent url (waited w url s)))
            = response_cache s).
    { unfold_states. destruct (0 <? w); reflexivity. }
    assert (Hcalls : net_calls
              (printed (Got429 url (next_wait w)) (sent url (waited w url s)))
            = net_calls s ++ [url]).
    { unfold_states. destruct (0 <? w); reflexivity. }
    assert (Hfile : csvfile
              (printed (Got429 url (next_wait w)) (sent url (waited w url s)))
            = csvfile s).
    { unfold_states. destruct (0 <? w); reflexivity. }
    assert (Hcon : exists l, console
              (printed (Got429 url (next_wait w)) (sent url (waited w url s)))
            = console s ++ l).
    { unfold_states. destruct (0 <? w); simpl;
        rewrite <- ?app_assoc; by eexists. }
    destruct Hcon as [l Hcon].
    rewrite Hcache in *. rewrite Hcalls in *. rewrite Hfile in *.
    rewrite Hcon in Hlines.
    split; auto.
    + exists (S m). rewrite Hnet, <- app_assoc. reflexivity.
    + intros u r Hu.
      destruct (Hnew u r Hu) as [?|(-> & Hs & Hres & n & Hn & Hsrv)];
        [by left|right].
      repeat split; auto. exists n. split; [|done].
      rewrite length_app in Hn. simpl in Hn. lia.
    + exists (l ++ lines). by rewrite Hlines, app_assoc.
Qed.

End RequestEffects.


(** ** Backoff *)

Section Backoff.

Variable server : nat -> string -> NetResult.

Lemma reply_429_true reply :
  reply_429 reply = true ->
  exists e, reply_outcome reply = inr e /\ is_429 e = true.
Proof.
  unfold reply_429. intros H.
  destruct (reply_outcome reply) as [r|e]; [discriminate|]. eauto.
Qed.

Lemma reply_429_false reply e :
  reply_429 reply = false -> reply_outcome reply = inr e -> is_429 e = false.
Proof. unfold reply_429. intros H Hr. by rewrite Hr in H. Qed.

(** A call made with [n] attempts left and wait [w], facing [k] replies of
    429 in a row: it sleeps its own wait, then the next [k] waits of the
    schedule as far as the attempts last. *)
Lemma request_backoff url ignore_error (n : nat) :
  forall w a s (k : nat),
    a = MAX_ATTEMPTS - Z.of_nat n ->
    response_cache s !! url = None ->
    (forall i, (i < k)%nat ->
       reply_429 (server (length (net_calls s) + i) url) = true) ->
    ((k <= n)%nat ->
       reply_429 (server (length (net_calls s) + k) url) = false) ->
    let res := request server url ignore_error w a s in
    sleeps (snd res)
      = sleeps s ++ (if 0 <? w then [w] else []) ++ take k (waits_after w n)
    /\ net_calls (snd res) = net_calls s ++ replicate (S (min k n)) url
    /\ ((n < k)%nat ->
        fst res = Return None /\ response_cache (snd res) = response_cache s)
    /\ ((k <= n)%nat -> fst res <> Return None).
Proof.
  induction n as [|n IH]; intros w a s k Ha Hc H429 Hlast;
    cbv zeta; rewrite request_step, Hc; cbv zeta.
  all: destruct k as [|k].
  all: try (
    (* no 429 at all: the call ends at once *)
    specialize (Hlast ltac:(lia)); rewrite Nat.add_0_r in Hlast;
    destruct (reply_outcome (server (length (net_calls s)) url))
      as [r|e] eqn:Hr;
    [|rewrite (reply_429_false _ _ Hlast Hr)];
    unfold_states; destruct ignore_error, (0 <? w); simpl;
    rewrite ?app_nil_r; repeat split; (done || lia)).
  - (* out of attempts *)
    destruct (reply_429_true _ (H429 0%nat ltac:(lia))) as (e & Hr & He).
    rewrite Nat.add_0_r in Hr. rewrite Hr, He.
    replace (MAX_ATTEMPTS <? a + 1) with true by (symmetry; apply Z.ltb_lt; lia).
    unfold_states; destruct (0 <? w); simpl;
      rewrite ?app_nil_r; repeat split; (done || lia).
  - (* retry *)
    destruct (reply_429_true _ (H429 0%nat ltac:(lia))) as (e & Hr & He).
    rewrite Nat.add_0_r in Hr. rewrite Hr, He.
    replace (MAX_ATTEMPTS <? a + 1) with false by (symmetry; apply Z.ltb_ge; lia).
    set (s' := printed (Got429 url (next_wait w)) (sent url (waited w url s))).
    assert (Hcache : response_cache s' = response_cache s).
    { unfold s'. unfold_states. destruct (0 <? w); reflexivity. }
    assert (Hcalls : net_calls s' = net_calls s ++ [url]).
    { unfold s'. unfold_states. destruct (0 <? w); reflexivity. }
    assert (Hsleeps : sleeps s' = sleeps s ++ (if 0 <? w then [w] else [])).
    { unfold s'. unfold_states. destruct (0 <? w); simpl;
        by rewrite ?app_nil_r. }
    destruct (IH (next_wait w) (a + 1) s' k) as (Hs & Hn & Hstop & Hgo).
    + lia.
    + by rewrite Hcache.
    + intros i Hi. rewrite Hcalls, length_app. simpl.
      replace (length (net_calls s) + 1 + i)%nat
        with (length (net_calls s) + S i)%nat by lia.
      apply H429. lia.
    + intros Hk. rewrite Hcalls, length_app. simpl.
      replace (length (net_calls s) + 1 + k)%nat
        with (length (net_calls s) + S k)%nat by lia.
      apply Hlast. lia.
    + rewrite Hs, Hn, Hsleeps, Hcalls, next_wait_pos, Hcache in *.
      simpl. rewrite <- !app_assoc. simpl.
      split; [done|]. split; [done|].
      split; intros Hk; [apply Hstop | apply Hgo]; lia.
Qed.

(** C1. Facing [k] consecutive 429 replies for a URL that is not cached, a
    call of [request] sleeps exactly the first [k] of the waits 1, 2, 4, 8,
    16, 32, 60, 60, 60, 60 between its requests; when the eleventh request
    is answered 429 as well, all ten waits have been slept and the call
    gives up after eleven requests instead of retrying again. *)
Theorem request_backoff_schedule url ignore_error s (k : nat) :
  response_cache s !! url = None ->
  (forall i, (i < k)%nat ->
     reply_429 (server (length (net_calls s) + i) url) = true) ->
  ((k <= 10)%nat ->
     reply_429 (server (length (net_calls s) + k) url) = false) ->
  let res := request server url ignore_error 0 0 s in
  sleeps (snd res) = sleeps s ++ take k [1; 2; 4; 8; 16; 32; 60; 60; 60; 60]
  /\ net_calls (snd res) = net_calls s ++ replicate (S (min k 10)) url
  /\ ((10 < k)%nat -> fst res = Return None)
  /\ ((k <= 10)%nat -> fst res <> Return None).
Proof.
  intros Hc H429 Hlast.
  destruct (request_backoff url ignore_error 10 0 0 s k)
    as (Hs & Hn & Hstop & Hgo); auto.
  cbv zeta. repeat split; auto.
  intros Hk. by apply Hstop.
Qed.

End Backoff.

Lemma request_backoff_schedule_witness :
  let res := request always_429 "u" false 0 0 initial_state in
  sleeps (snd res)
    = sleeps initial_state ++ take 11 [1; 2; 4; 8; 16; 32; 60; 60; 60; 60]
  /\ net_calls (snd res)
     = net_calls initial_state ++ replicate (S (min 11 10)) "u"
  /\ ((10 < 11)%nat -> fst res = Return None)
  /\ ((11 <= 10)%nat -> fst res <> Return None).
Proof.
  apply (request_backoff_schedule always_429 "u" false initial_state 11).
  - reflexivity.
  - intros i Hi. reflexivity.
  - lia.
Defined.

(** ** The extractors' opening *)

Section Fetch.

Variable server : nat -> string -> NetResult.

(** Whatever [request] raises is a [RequestException]. *)
Lemma request_raises url ignore_error w a s e :
  fst (request server url ignore_error w a s) = Raise e ->
  is_RequestException e = true.
Proof.
  revert w a s.
  apply (request_induction server url ignore_error
           (fun _ _ _ res => fst res = Raise e -> is_RequestException e = true));
    simpl; try discriminate; auto.
  intros w a s e' _ Hr _ [= <-].
  destruct (server (length (net_calls s)) url) as [r|er]; simpl in Hr.
  - destruct ((400 <=? status_code r) && (status_code r <? 600));
      [by injection Hr as <- | discriminate].
  - by injection Hr as <-.
Qed.

(** So the [except] clause of an extractor catches every exception its
    call of [request] raises, and the extractor returns its sentinel. *)
Lemma fetch_or_return_eq {A} url (sentinel : A) rest s :
  fetch_or_return server url sentinel rest s
  = match request server url true 0 0 s with
    | (Return response, s') => (rest response, s')
    | (Raise _, s') => (Return sentinel, s')
    end.
Proof.
  unfold fetch_or_return, bind, try_except, ret, lift.
  destruct (request server url true 0 0 s) as [[response|e] s'] eqn:Hreq;
    [reflexivity|].
  assert (He : is_RequestException e = true).
  { eapply request_raises. by rewrite Hreq. }
  by rewrite He.
Qed.

(** Eleven 429 replies in a row exhaust a call. *)
Lemma request_exhausted url ignore_error s :
  response_cache s !! url = None ->
  (forall i, (i < 11)%nat ->
     reply_429 (server (length (net_calls s) + i) url) = true) ->
  fst (request server url ignore_error 0 0 s) = Return None
  /\ response_cache (snd (request server url ignore_error 0 0 s))
     = response_cache s.
Proof.
  intros Hc H429.
  destruct (request_backoff server url ignore_error 10 0 0 s 11)
    as (_ & _ & Hstop & _);
    [reflexivity | assumption | assumption | lia |].
  apply Hstop. lia.
Qed.

End Fetch.

(** ** Exhausted retries *)

Section Exhausted.

Variable server : nat -> string -> NetResult.
Variable py_repr : JSON -> string.

(** C9. When eleven 429 replies in a row exhaust the retries for a URL,
    [request] returns [None] without raising and stores nothing in the
    cache; [is_game_beaten] and [get_review_summary] then call [.json()]
    on that [None], which raises an [AttributeError], an exception their
    [except requests.RequestException] clauses do not cover. *)
Theorem request_exhausted_returns_None url ignore_error s :
  response_cache s !! url = None ->
  (forall i, (i < 11)%nat ->
     reply_429 (server (length (net_calls s) + i) url) = true) ->
  fst (request server url ignore_error 0 0 s) = Return None
  /\ response_cache (snd (request server url ignore_error 0 0 s))
     = response_cache s
  /\ is_RequestException AttributeError = false
  /\ (forall appid steam_id api_key,
        url = achievements_url py_repr appid steam_id api_key ->
        fst (is_game_beaten server py_repr appid steam_id api_key s)
        = Raise AttributeError)
  /\ (forall appid,
        url = review_url py_repr appid ->
        fst (get_review_summary server py_repr appid s)
        = Raise AttributeError).
Proof.
  intros Hc H429.
  split; [by apply request_exhausted|].
  split; [by apply request_exhausted|].
  split; [reflexivity|].
  split.
  - intros appid steam_id api_key ->. unfold is_game_beaten.
    rewrite fetch_or_return_eq.
    destruct (request_exhausted server _ true s Hc H429) as [Hnone _].
    destruct (request server _ true 0 0 s) as [o s']. simpl in Hnone.
    by subst o.
  - intros appid ->. unfold get_review_summary.
    rewrite fetch_or_return_eq.
    destruct (request_exhausted server _ true s Hc H429) as [Hnone _].
    destruct (request server _ true 0 0 s) as [o s']. simpl in Hnone.
    by subst o.
Qed.

End Exhausted.

Lemma request_exhausted_returns_None_witness :
  fst (get_review_summary always_429 no_repr (JInt 440) initial_state)
  = Raise AttributeError.
Proof.
  apply (request_exhausted_returns_None always_429 no_repr
           (review_url no_repr (JInt 440)) true initial_state).
  - reflexivity.
  - intros i Hi. reflexivity.
  - reflexivity.
Defined.

(** ** The response cache *)

Section Cache.

Variable server : nat -> string -> NetResult.

Lemma request_cached url ignore_error w a s r :
  response_cache s !! url = Some r ->
  request server url ignore_error w a s = (Return (Some r), s).
Proof. intros Hc. by rewrite request_step, Hc. Qed.

Lemma step_cache_kept s s' :
  step server s s' ->
  forall u r, response_cache s !! u = Some r ->
              response_cache s' !! u = Some r.
Proof.
  intros [url ie w a s0|l s0|s0|row s0] u r Hu; try exact Hu.
  by apply (post_cache_kept _ _ _ _ (request_effects server url ie w a s0)).
Qed.

Lemma steps_cache_kept s s' :
  rtc (step server) s s' ->
  forall u r, response_cache s !! u = Some r ->
              response_cache s' !! u = Some r.
Proof.
  induction 1 as [|s1 s2 s3 Hstep _ IH]; intros u r Hu; [done|].
  eapply IH, step_cache_kept; eauto.
Qed.

Lemma step_cache_sound s s' :
  step server s s' -> cache_sound server s -> cache_sound server s'.
Proof.
  intros [url ie w a s0|l s0|s0|row s0] Hsound u r Hu;
    try (by apply Hsound).
  destruct (request_effects server url ie w a s0)
    as [_ [m Hnet] _ Hnew _ _].
  destruct (Hnew u r Hu) as [Hold|(-> & Hs & _ & n & Hn & Hsrv)].
  - destruct (Hsound u r Hold) as (Hs & n & Hn & Hsrv).
    split; [done|]. exists n. split; [|done].
    rewrite Hnet. by apply lookup_app_l_Some.
  - split; [done|]. exists n. split; [|done].
    rewrite Hnet in *. rewrite length_app, length_replicate in Hn.
    rewrite lookup_app_r by lia. apply lookup_replicate_2. lia.
Qed.

Lemma steps_cache_sound s s' :
  rtc (step server) s s' -> cache_sound server s -> cache_sound server s'.
Proof.
  induction 1 as [|s1 s2 s3 Hstep _ IH]; [done|].
  intros Hsound. by eapply IH, step_cache_sound.
Qed.


End Cache.


(** ** The app-details extractors *)

Section AppDetails.

Variable server : nat -> string -> NetResult.
Variable py_repr : JSON -> string.

(** A URL is in the cache after a call only if the call returned its
    response. *)
Lemma request_cached_after url ignore_error w a s r :
  response_cache (snd (request server url ignore_error w a s)) !! url
  = Some r ->
  fst (request server url ignore_error w a s) = Return (Some r).
Proof.
  intros Hc.
  destruct (post_cache_new _ _ _ _
              (request_effects server url ignore_error w a s) url r Hc)
    as [Hold|(_ & _ & Hres & _)]; [|done].
  by rewrite (request_cached server url ignore_error w a s r Hold).
Qed.

(** C10, as amended.  [get_metacritic_score] and [get_release_date] build
    the same URL.  When that URL is cached after the first call, both read
    the one cached response and the second call changes nothing: no
    network request.  When the first reply to the first call is a success,
    the two calls issue exactly one network request together. *)
Theorem appdetails_shared_response appid s :
  let url := metacritic_url py_repr appid in
  let first := get_metacritic_score server py_repr appid s in
  let second := get_release_date server py_repr appid (snd first) in
  url = release_date_url py_repr appid
  /\ (forall r,
        response_cache (snd first) !! url = Some r ->
        fst first = metacritic_score_from py_repr appid (Some r)
        /\ second = (release_date_from py_repr appid (Some r), snd first))
  /\ (forall r,
        response_cache s !! url = None ->
        reply_outcome (server (length (net_calls s)) url) = inl r ->
        net_calls (snd second) = net_calls s ++ [url]).
Proof.
  cbv zeta. split; [reflexivity|].
  unfold get_metacritic_score, get_release_date.
  change (release_date_url py_repr appid) with (metacritic_url py_repr appid).
  set (url := metacritic_url py_repr appid).
  rewrite !fetch_or_return_eq.
  split.
  - intros r Hc.
    assert (Hc' : response_cache (snd (request server url true 0 0 s)) !! url
                  = Some r).
    { destruct (request server url true 0 0 s) as [[resp|e] s1]; exact Hc. }
    apply request_cached_after in Hc'.
    destruct (request server url true 0 0 s) as [o s1].
    simpl in Hc'. subst o. simpl in *.
    split; [reflexivity|].
    by rewrite (request_cached server url true 0 0 s1 r Hc).
  - intros r Hc Hr.
    rewrite (request_step server url true 0 0 s), Hc. cbv zeta.
    rewrite Hr. cbn [snd].
    rewrite (request_cached server url true 0 0 _ r).
    + reflexivity.
    + unfold_states. simpl. apply lookup_insert_eq.
Qed.

(** C7, as amended.  When its call of [request] raises,
    [get_metacritic_score] returns ["Error Fetching Metacritic Score"].
    On a response whose body is a JSON object it returns ["No Score"] when
    the object has no entry for the application or the entry's [data]
    object has no [metacritic] key, and the nested score when it is there.
    What is raised after the fetch reaches the caller: an [AttributeError]
    when [request] returned [None], a decoding error when the body is not
    JSON. *)
Theorem get_metacritic_score_cases appid s :
  let fetched := request server (metacritic_url py_repr appid) true 0 0 s in
  let result := get_metacritic_score server py_repr appid s in
  snd result = snd fetched
  /\ (forall e, fst fetched = Raise e ->
        fst result = Return (JStr "Error Fetching Metacritic Score"))
  /\ (fst fetched = Return None -> fst result = Raise AttributeError)
  /\ (forall r, fst fetched = Return (Some r) ->
        (json r = None -> fst result = Raise JSONDecodeError)
        /\ (forall fields, json r = Some (JObj fields) ->
              (dict_lookup (py_str py_repr appid) fields = None ->
                 fst result = Return (JStr "No Score"))
              /\ (forall entry details,
                    dict_lookup (py_str py_repr appid) fields = Some entry ->
                    py_getitem entry "data" = Return (JObj details) ->
                    (dict_lookup "metacritic" details = None ->
                       fst result = Return (JStr "No Score"))
                    /\ (forall metacritic score,
                          dict_lookup "metacritic" details = Some metacritic ->
                          py_getitem metacritic "score" = Return score ->
                          fst result = Return score)))).
Proof.
  cbv zeta. unfold get_metacritic_score. rewrite fetch_or_return_eq.
  destruct (request server (metacritic_url py_repr appid) true 0 0 s)
    as [[response|e] s1]; simpl.
  - split; [reflexivity|]. split; [discriminate|].
    split; [by intros [= ->]|].
    intros r [= ->]. unfold metacritic_score_from, appdetails_has,
      appdetails_field. simpl.
    split; [by intros ->|].
    intros fields ->. simpl. split.
    + intros Hnone. rewrite Hnone. reflexivity.
    + intros entry details Hentry Hdata. rewrite Hentry. simpl.
      rewrite Hdata. simpl. split.
      * intros Hnone. rewrite Hnone. reflexivity.
      * intros metacritic score Hm Hscore. rewrite Hm. simpl.
        by rewrite Hscore.
  - split; [reflexivity|]. split; [reflexivity|].
    split; [discriminate|]. discriminate.
Qed.

End AppDetails.

Lemma appdetails_shared_response_witness :
  let url := metacritic_url no_repr (JInt 440) in
  let first :=
    get_metacritic_score (always_ok appdetails_440) no_repr (JInt 440)
      initial_state in
  let second :=
    get_release_date (always_ok appdetails_440) no_repr (JInt 440)
      (snd first) in
  net_calls (snd second) = net_calls initial_state ++ [url].
Proof.
  apply (proj2 (proj2 (appdetails_shared_response
                         (always_ok appdetails_440) no_repr (JInt 440)
                         initial_state))
           (ok_response appdetails_440)).
  - reflexivity.
  - reflexivity.
Defined.

(** C10 as stated fails: the first reply is HTTP 429, the retry succeeds,
    [get_metacritic_score] returns the score and [get_release_date] reads
    the cache, and yet two network requests went to the app-details URL of
    the one application. *)
Lemma appdetails_two_requests :
  let url := metacritic_url no_repr (JInt 440) in
  let first :=
    get_metacritic_score (retry_then_ok appdetails_440) no_repr (JInt 440)
      initial_state in
  let second :=
    get_release_date (retry_then_ok appdetails_440) no_repr (JInt 440)
      (snd first) in
  fst first = Return (JInt 92)
  /\ fst second = Return "2007-10-10"
  /\ net_calls (snd second) = [url; url]
  /\ ~ (length (net_calls (snd second)) <= 1)%nat.
Proof.
  cbv zeta.
  assert (H : net_calls (snd (get_release_date (retry_then_ok appdetails_440)
                 no_repr (JInt 440)
                 (snd (get_metacritic_score (retry_then_ok appdetails_440)
                         no_repr (JInt 440) initial_state))))
              = [metacritic_url no_repr (JInt 440);
                 metacritic_url no_repr (JInt 440)])
    by (vm_compute; reflexivity).
  split; [vm_compute; reflexivity|].
  split; [vm_compute; reflexivity|].
  split; [exact H|]. rewrite H. simpl. lia.
Qed.

Lemma get_metacritic_score_cases_witness :
  fst (get_metacritic_score (always_ok appdetails_440) no_repr (JInt 440)
         initial_state)
  = Return (JInt 92).
Proof.
  pose proof (get_metacritic_score_cases (always_ok appdetails_440) no_repr
                (JInt 440) initial_state) as H.
  cbv zeta in H. destruct H as (_ & _ & _ & H).
  destruct (H (ok_response appdetails_440) eq_refl) as [_ Hobj].
  destruct (Hobj _ eq_refl) as [_ Hentry].
  destruct (Hentry _ _ eq_refl eq_refl) as [_ Hscore].
  exact (Hscore _ _ eq_refl eq_refl).
Defined.

(** C7 as stated fails: when the retries are exhausted [request] returns
    [None], and [get_metacritic_score] raises an [AttributeError] to its
    caller. *)
Lemma get_metacritic_score_raises :
  fst (get_metacritic_score always_429 no_repr (JInt 440) initial_state)
  = Raise AttributeError.
Proof. vm_compute. reflexivity. Qed.

(** ** The completion heuristic *)

Lemma at_least_half_spec unlocked_achievements total_achievements :
  at_least_half unlocked_achievements total_achievements
  = (total_achievements <=? 2 * unlocked_achievements).
Proof.
  unfold at_least_half.
  apply eq_true_iff_eq. rewrite Qle_bool_iff, Z.leb_le.
  unfold Qle, Qdiv, Qmult, Qinv, inject_Z. simpl. lia.
Qed.

Lemma sum_achieved_flags achievements flags acc :
  Forall2 achieved_is achievements flags ->
  sum_achieved achievements acc = Return (acc + unlocked flags).
Proof.
  intros H. revert acc.
  induction H as [|ach flag achievements flags Hach _ IH]; intros acc.
  - simpl. f_equal. unfold unlocked. simpl. lia.
  - simpl. rewrite Hach. simpl. rewrite IH. f_equal.
    unfold unlocked. destruct flag; simpl; lia.
Qed.

(** C4, as amended.  [is_game_beaten] returns [False] when its call of
    [request] raises and when the response object lacks [playerstats] or
    [playerstats] lacks [achievements]; when [request] returned [None] it
    raises an [AttributeError].  On a list of achievements it returns
    whether the unlocked ones are at least half of the listed ones: with 4
    listed, 2 unlocked give [True] and 1 gives [False]; with none listed,
    [True]. *)
Theorem is_game_beaten_cases server py_repr appid steam_id api_key s :
  let url := achievements_url py_repr appid steam_id api_key in
  let fetched := request server url true 0 0 s in
  let result := is_game_beaten server py_repr appid steam_id api_key s in
  snd result = snd fetched
  /\ (forall e, fst fetched = Raise e -> fst result = Return false)
  /\ (fst fetched = Return None -> fst result = Raise AttributeError)
  /\ (forall r fields,
        fst fetched = Return (Some r) -> json r = Some (JObj fields) ->
        (dict_lookup "playerstats" fields = None ->
           fst result = Return false)
        /\ (forall stats,
              dict_lookup "playerstats" fields = Some (JObj stats) ->
              (dict_lookup "achievements" stats = None ->
                 fst result = Return false)
              /\ (forall achievements flags,
                    dict_lookup "achievements" stats
                    = Some (JArr achievements) ->
                    Forall2 achieved_is achievements flags ->
                    fst result
                    = Return (Z.of_nat (length flags) <=? 2 * unlocked flags))))
  /\ fst (is_game_beaten
            (always_ok (achievements_data [true; true; false; false]))
            py_repr appid steam_id api_key initial_state) = Return true
  /\ fst (is_game_beaten
            (always_ok (achievements_data [true; false; false; false]))
            py_repr appid steam_id api_key initial_state) = Return false.
Proof.
  cbv zeta. split; [|split; [|split; [|split; [|split]]]].
  - unfold is_game_beaten. rewrite fetch_or_return_eq.
    by destruct (request server _ true 0 0 s) as [[response|e] s1].
  - intros e. unfold is_game_beaten. rewrite fetch_or_return_eq.
    destruct (request server _ true 0 0 s) as [[response|e'] s1]; simpl;
      [discriminate|reflexivity].
  - unfold is_game_beaten. rewrite fetch_or_return_eq.
    destruct (request server _ true 0 0 s) as [[response|e'] s1]; simpl;
      [|discriminate].
    by intros [= ->].
  - intros r fields. unfold is_game_beaten. rewrite fetch_or_return_eq.
    destruct (request server _ true 0 0 s) as [[response|e'] s1]; simpl;
      [|discriminate].
    intros [= ->] Hjson. unfold beaten_from. simpl. rewrite Hjson. simpl.
    split.
    + intros Hnone. rewrite Hnone. reflexivity.
    + intros stats Hstats. rewrite Hstats. simpl. split.
      * intros Hnone. rewrite Hnone. reflexivity.
      * intros achievements flags Hachievements Hflags.
        rewrite Hachievements. simpl.
        rewrite (sum_achieved_flags _ _ 0 Hflags). simpl.
        rewrite at_least_half_spec.
        by rewrite (Forall2_length _ _ _ Hflags).
  - unfold is_game_beaten. rewrite fetch_or_return_eq.
    rewrite (request_step _ _ true 0 0 initial_state). reflexivity.
  - unfold is_game_beaten. rewrite fetch_or_return_eq.
    rewrite (request_step _ _ true 0 0 initial_state). reflexivity.
Qed.

Lemma is_game_beaten_cases_witness :
  fst (is_game_beaten (always_ok (achievements_data [true; false; true]))
         no_repr (JInt 440) "76561197960287930" (Some "key") initial_state)
  = Return (Z.of_nat (length [true; false; true])
            <=? 2 * unlocked [true; false; true]).
Proof.
  pose proof (is_game_beaten_cases
                (always_ok (achievements_data [true; false; true]))
                no_repr (JInt 440) "76561197960287930" (Some "key")
                initial_state) as H.
  cbv zeta in H. destruct H as (_ & _ & _ & H & _).
  destruct (H (ok_response (achievements_data [true; false; true])) _
              eq_refl eq_refl) as [_ Hstats].
  destruct (Hstats _ eq_refl) as [_ Hlist].
  apply (Hlist _ [true; false; true] eq_refl).
  repeat constructor.
Defined.

(** C4 as stated fails twice.  An empty list of achievements is at least
    half unlocked, so a game that lists none is reported as beaten; and
    when the retries are exhausted the fetch has failed, yet the function
    raises an [AttributeError] instead of returning [False]. *)
Lemma is_game_beaten_not_false :
  fst (is_game_beaten (always_ok (achievements_data []))
         no_repr (JInt 440) "76561197960287930" (Some "key") initial_state)
  = Return true
  /\ fst (is_game_beaten always_429
            no_repr (JInt 440) "76561197960287930" (Some "key") initial_state)
     = Raise AttributeError.
Proof. split; vm_compute; reflexivity. Qed.

(** ** The report loop *)

Section Report.

Variable server : nat -> string -> NetResult.
Variable py_repr : JSON -> string.
Variable api_key : option string.

Lemma extends_refl s : extends s s.
Proof. split; [reflexivity|]. exists []. by rewrite app_nil_r. Qed.

Lemma extends_trans s1 s2 s3 : extends s1 s2 -> extends s2 s3 -> extends s1 s3.
Proof.
  intros [Hf1 [l1 Hl1]] [Hf2 [l2 Hl2]]. split; [congruence|].
  exists (l1 ++ l2). by rewrite Hl2, Hl1, app_assoc.
Qed.

Lemma request_extends url ignore_error w a s :
  extends s (snd (request server url ignore_error w a s)).
Proof.
  destruct (request_effects server url ignore_error w a s)
    as [Hcsv _ _ _ _ _ Hcon].
  by split.
Qed.

Lemma fetch_or_return_extends {A} url (sentinel : A) rest s :
  extends s (snd (fetch_or_return server url sentinel rest s)).
Proof.
  rewrite fetch_or_return_eq.
  pose proof (request_extends url true 0 0 s) as H.
  by destruct (request server url true 0 0 s) as [[response|e] s1].
Qed.

(** The enrichment of one game either raises and leaves the file as it
    was, or appends exactly one row, which carries the name and the
    last-played date it was given. *)
Lemma enrich_and_write_effects steam_id appid name playtime date s :
  let res := enrich_and_write server py_repr api_key steam_id
               appid name playtime date s in
  (exists lines, console (snd res) = console s ++ lines)
  /\ match fst res with
     | Raise _ => csvfile (snd res) = csvfile s
     | Return _ =>
         exists row,
           csvfile (snd res) = Some (default [] (csvfile s) ++ [row])
           /\ Name row = name /\ Last_Played_Added row = date
     end.
Proof.
  cbv zeta. unfold enrich_and_write, bind.
  pose proof (fetch_or_return_extends (review_url py_repr appid)
                (JStr "Error Fetching Reviews") review_summary_from s) as H1.
  fold (get_review_summary server py_repr appid) in H1.
  destruct (get_review_summary server py_repr appid s) as [[review|e] s1];
    simpl in H1; [|by destruct H1].
  pose proof (fetch_or_return_extends (metacritic_url py_repr appid)
                (JStr "Error Fetching Metacritic Score")
                (metacritic_score_from py_repr appid) s1) as H2.
  fold (get_metacritic_score server py_repr appid) in H2.
  destruct (get_metacritic_score server py_repr appid s1) as [[score|e] s2];
    simpl in H2; pose proof (extends_trans _ _ _ H1 H2) as H12;
    [|by destruct H12].
  pose proof (fetch_or_return_extends (release_date_url py_repr appid)
                "Error Fetching Release Date"
                (release_date_from py_repr appid) s2) as H3.
  fold (get_release_date server py_repr appid) in H3.
  destruct (get_release_date server py_repr appid s2) as [[released|e] s3];
    simpl in H3; pose proof (extends_trans _ _ _ H12 H3) as H123;
    [|by destruct H123].
  pose proof (fetch_or_return_extends
                (achievements_url py_repr appid steam_id api_key)
                false beaten_from s3) as H4.
  fold (is_game_beaten server py_repr appid steam_id api_key) in H4.
  destruct (is_game_beaten server py_repr appid steam_id api_key s3)
    as [[beaten|e] s4];
    simpl in H4; pose proof (extends_trans _ _ _ H123 H4) as [Hcsv Hcon];
    [|by split].
  simpl. split; [exact Hcon|]. eexists. rewrite Hcsv. by repeat split.
Qed.

Lemma read_game_fields game appid name playtime date :
  read_game game = Return (appid, name, playtime, date) ->
  py_getitem game "appid" = Return appid
  /\ py_getitem game "name" = Return name
  /\ exists timestamp,
       py_get game "rtime_last_played" (JInt 0) = Return timestamp
       /\ last_played timestamp = Return date.
Proof.
  unfold read_game, and_then.
  destruct (py_getitem game "appid") as [appid'|]; [|discriminate].
  destruct (py_getitem game "name") as [name'|]; [|discriminate].
  destruct (py_get game "playtime_forever" (JInt 0)) as [playtime'|];
    [|discriminate].
  destruct (py_get game "rtime_last_played" (JInt 0)) as [timestamp|];
    [|discriminate].
  destruct (last_played timestamp) as [date'|] eqn:Hdate; [|discriminate].
  intros [= -> -> -> ->]. eauto.
Qed.

(** A readable game never makes the loop body raise: its enrichment
    either writes the game's row, or is caught and logged with the game's
    [appid] and [name], leaving the file as it was. *)
Lemma process_game_effects steam_id game s appid name playtime date :
  read_game game = Return (appid, name, playtime, date) ->
  let res := process_game server py_repr api_key steam_id game s in
  fst res = Return tt
  /\ (exists lines, console (snd res) = console s ++ lines)
  /\ (if enrichment_raises server py_repr api_key steam_id game s
      then csvfile (snd res) = csvfile s
           /\ exists e, In (GameException appid name e) (console (snd res))
      else exists row,
             csvfile (snd res) = Some (default [] (csvfile s) ++ [row])
             /\ Name row = name /\ Last_Played_Added row = date).
Proof.
  intros Hread. cbv zeta.
  unfold process_game, enrichment_raises, bind, lift, try_except.
  rewrite Hread.
  pose proof (enrich_and_write_effects steam_id appid name playtime date s)
    as [[lines Hcon] Hfile].
  destruct (enrich_and_write server py_repr api_key steam_id
              appid name playtime date s) as [[[]|e] s1]; simpl in *.
  - split; [reflexivity|]. split; [by exists lines|]. exact Hfile.
  - split; [reflexivity|]. split.
    + exists (lines ++ [GameException appid name e]).
      by rewrite Hcon, app_assoc.
    + split; [exact Hfile|]. exists e. apply in_or_app. right. by left.
Qed.

Lemma logged_failure_later game s s' :
  logged_failure game s ->
  (exists lines, console s' = console s ++ lines) ->
  logged_failure game s'.
Proof.
  intros (appid & name & e & Happid & Hname & Hin) [lines Hcon].
  exists appid, name, e. repeat split; try done.
  rewrite Hcon. apply in_or_app. by left.
Qed.

Lemma process_games_effects steam_id games :
  Forall (fun game => readable game = true) games ->
  forall s rows,
    csvfile s = Some rows ->
    let res := process_games server py_repr api_key steam_id games s in
    let failed := failed_games server py_repr api_key steam_id games s in
    fst res = Return tt
    /\ (exists lines, console (snd res) = console s ++ lines)
    /\ (exists new_rows,
          csvfile (snd res) = Some (rows ++ new_rows)
          /\ (length new_rows + length failed = length games)%nat)
    /\ (forall game, In game failed -> logged_failure game (snd res)).
Proof.
  induction 1 as [|game games Hgame _ IH]; intros s rows Hrows; cbv zeta.
  - simpl. split; [reflexivity|]. split; [by exists []; rewrite app_nil_r|].
    split; [|by intros ? []]. exists []. by rewrite app_nil_r.
  - unfold readable in Hgame.
    destruct (read_game game) as [[[[appid name] playtime] date]|] eqn:Hread;
      [|discriminate].
    destruct (process_game_effects steam_id game s _ _ _ _ Hread)
      as (Hret & [lines Hcon] & Hfile).
    destruct (read_game_fields _ _ _ _ _ Hread) as (Happid & Hname & _).
    cbn [failed_games].
    destruct (process_game server py_repr api_key steam_id game s)
      as [o s1] eqn:Hstep.
    simpl in Hret, Hcon, Hfile. subst o.
    assert (Heq :
      process_games server py_repr api_key steam_id (game :: games) s
      = process_games server py_repr api_key steam_id games s1).
    { simpl. unfold bind. by rewrite Hstep. }
    rewrite Heq. cbn [snd].
    destruct (enrichment_raises server py_repr api_key steam_id game s).
    + destruct Hfile as [Hfile [e Hin]].
      destruct (IH s1 rows ltac:(congruence))
        as (Hret' & [lines' Hcon'] & (new_rows & Hnew & Hlen) & Hlog).
      split; [exact Hret'|]. split.
      { exists (lines ++ lines'). by rewrite Hcon', Hcon, app_assoc. }
      split.
      { exists new_rows. split; [exact Hnew|]. simpl. lia. }
      intros g [<-|Hg]; [|by apply Hlog].
      apply (logged_failure_later game s1); [|by exists lines'].
      by exists appid, name, e.
    + destruct Hfile as (row & Hfile & _).
      rewrite Hrows in Hfile. simpl in Hfile.
      destruct (IH s1 (rows ++ [row]) Hfile)
        as (Hret' & [lines' Hcon'] & (new_rows & Hnew & Hlen) & Hlog).
      split; [exact Hret'|]. split.
      { exists (lines ++ lines'). by rewrite Hcon', Hcon, app_assoc. }
      split.
      { exists (row :: new_rows). split.
        - by rewrite Hnew, <- app_assoc.
        - simpl. lia. }
      intros g Hg. by apply Hlog.
Qed.


End Report.


(** ** The owned-games call *)

Section OwnedGames.

Variable server : nat -> string -> NetResult.
Variable py_repr : JSON -> string.
Variable api_key : option string.

Lemma get_owned_games_extends steam_id s :
  extends s (snd (get_owned_games server steam_id api_key s)).
Proof.
  unfold get_owned_games, bind, lift.
  pose proof (request_extends server
                (owned_games_url steam_id api_key) false 0 0 s) as H.
  by destruct (request server (owned_games_url steam_id api_key) false 0 0 s)
    as [[response|e] s1].
Qed.

(** C5, as amended.  A [RequestException] raised by the owned-games
    fetch leaves [main] uncaught.  When the games list comes back empty,
    [main] prints its message and returns normally.  In both cases, and
    whenever [get_owned_games] raises, no output file is written. *)
Theorem main_without_games steam_id s :
  steam_id <> "" ->
  let fetched := get_owned_games server steam_id api_key s in
  let res := main server py_repr api_key (Some steam_id) s in
  (forall e,
     fst (request server (owned_games_url steam_id api_key) false 0 0 s)
     = Raise e ->
     fst res = Raise e)
  /\ (forall owned_games,
        fst fetched = Return owned_games ->
        py_truthy owned_games = false ->
        fst res = Return tt
        /\ console (snd res) = console (snd fetched) ++ [NoOwnedGames])
  /\ ((forall owned_games,
         fst fetched = Return owned_games -> py_truthy owned_games = false) ->
      csvfile (snd res) = csvfile s).
Proof.
  intros Hid. cbv zeta. apply String.eqb_neq in Hid.
  split; [|split].
  - intros e. unfold main, get_owned_games, bind. rewrite Hid.
    destruct (request server _ false 0 0 s) as [[response|e'] s1]; simpl;
      congruence.
  - intros owned_games Hret Hfalsy. unfold main, bind. rewrite Hid.
    destruct (get_owned_games server steam_id api_key s) as [[games|e'] s1];
      simpl in *; [|discriminate].
    injection Hret as ->. rewrite Hfalsy. simpl. by split.
  - intros Hfalsy. unfold main, bind. rewrite Hid.
    destruct (get_owned_games_extends steam_id s) as [Hcsv _].
    destruct (get_owned_games server steam_id api_key s) as [[games|e'] s1];
      simpl in *; [|exact Hcsv].
    rewrite (Hfalsy games eq_refl). exact Hcsv.
Qed.

End OwnedGames.

Lemma main_without_games_witness :
  let res := main (always_ok (JObj [("response", JObj [("games", JArr [])])]))
               no_repr (Some "key") (Some "76561197960287930")
               initial_state in
  fst res = Return tt.
Proof.
  destruct (main_without_games
              (always_ok (JObj [("response", JObj [("games", JArr [])])]))
              no_repr (Some "key") "76561197960287930" initial_state)
    as (_ & Hempty & _).
  - discriminate.
  - destruct (Hempty (JArr []) eq_refl eq_refl) as (Hret & _).
    exact Hret.
Defined.

(** C5 as stated fails: when the owned-games fetch is answered with HTTP
    500, the [RequestException] that [request] re-raises leaves [main]
    uncaught, which ends the program with a traceback; no output file is
    written. *)
Lemma main_raises_on_failed_fetch :
  let res := main always_500 no_repr (Some "key")
               (Some "76561197960287930") initial_state in
  fst res = Raise (RequestException (Some internal_server_error))
  /\ fst res <> Return tt
  /\ csvfile (snd res) = None.
Proof. cbv zeta. split; [|split]; vm_compute; congruence. Qed.

(** ** Dates *)

Lemma month_and_day_checked :
  forallb (fun n => month_and_day_ok true n && month_and_day_ok false n)
    (seqZ 0 365) = true.
Proof. vm_compute. reflexivity. Qed.

Lemma month_and_day_spec leapyear n :
  0 <= n < 365 ->
  let '(month, day) := month_and_day n leapyear in
  1 <= month <= 12 /\ 1 <= day <= days_in_month_of leapyear month
  /\ days_before_month_of leapyear month + day = n + 1.
Proof.
  intros Hn.
  pose proof month_and_day_checked as Hall.
  rewrite forallb_forall in Hall.
  assert (Hin : In n (seqZ 0 365)).
  { apply list_elem_of_In, elem_of_seqZ. lia. }
  specialize (Hall n Hin). apply andb_prop in Hall as [Ht Hf].
  assert (Hok : month_and_day_ok leapyear n = true) by (by destruct leapyear).
  unfold month_and_day_ok in Hok.
  destruct (month_and_day n leapyear) as [month day].
  repeat (apply andb_prop in Hok as [Hok ?]).
  lia.
Qed.

Lemma year_cycles a b c e :
  0 <= a -> 0 <= b <= 3 -> 0 <= c <= 24 -> 0 <= e <= 3 ->
  let year := 400 * a + 100 * b + 4 * c + e + 1 in
  days_before_year year = 146097 * a + 36524 * b + 1461 * c + 365 * e
  /\ is_leap year = (e =? 3) && (negb (c =? 24) || (b =? 3)).
Proof.
  intros Ha Hb Hc He year. subst year. split.
  - unfold days_before_year. cbv zeta.
    replace (400 * a + 100 * b + 4 * c + e + 1 - 1)
      with (400 * a + 100 * b + 4 * c + e) by lia.
    assert (H4 : (400 * a + 100 * b + 4 * c + e) / 4 = 100 * a + 25 * b + c)
      by (symmetry; apply (Z.div_unique _ _ _ e); lia).
    assert (H100 : (400 * a + 100 * b + 4 * c + e) / 100 = 4 * a + b)
      by (symmetry; apply (Z.div_unique _ _ _ (4 * c + e)); lia).
    assert (H400 : (400 * a + 100 * b + 4 * c + e) / 400 = a)
      by (symmetry; apply (Z.div_unique _ _ _ (100 * b + 4 * c + e)); lia).
    rewrite H4, H100, H400. lia.
  - unfold is_leap.
    assert (H4 : (400 * a + 100 * b + 4 * c + e + 1) mod 4 = (e + 1) mod 4).
    { replace (400 * a + 100 * b + 4 * c + e + 1)
        with (e + 1 + (100 * a + 25 * b + c) * 4) by lia.
      apply Z.mod_add. lia. }
    assert (H100 : (400 * a + 100 * b + 4 * c + e + 1) mod 100
                   = (4 * c + e + 1) mod 100).
    { replace (400 * a + 100 * b + 4 * c + e + 1)
        with (4 * c + e + 1 + (4 * a + b) * 100) by lia.
      apply Z.mod_add. lia. }
    assert (H400 : (400 * a + 100 * b + 4 * c + e + 1) mod 400
                   = (100 * b + 4 * c + e + 1) mod 400).
    { replace (400 * a + 100 * b + 4 * c + e + 1)
        with (100 * b + 4 * c + e + 1 + a * 400) by lia.
      apply Z.mod_add. lia. }
    rewrite H4, H100, H400.
    destruct (Z.eqb_spec e 3) as [->|He3].
    + replace ((3 + 1) mod 4) with 0 by reflexivity. simpl.
      destruct (Z.eqb_spec c 24) as [->|Hc24]; simpl.
      * replace ((4 * 24 + 3 + 1) mod 100) with 0 by reflexivity. simpl.
        destruct (Z.eqb_spec b 3) as [->|Hb3]; [reflexivity|].
        apply Z.eqb_neq. intros Hmod. apply Z.mod_divide in Hmod; [|lia].
        destruct Hmod as [k Hk]. lia.
      * replace ((4 * c + 3 + 1) mod 100 =? 0) with false; [reflexivity|].
        symmetry. apply Z.eqb_neq. rewrite Z.mod_small by lia. lia.
    + simpl. replace ((e + 1) mod 4 =? 0) with false; [reflexivity|].
      symmetry. apply Z.eqb_neq. rewrite Z.mod_small by lia. lia.
Qed.

Lemma ord2ymd_spec ordinal :
  1 <= ordinal <= 3652059 ->
  let '(year, month, day) := ord2ymd ordinal in
  valid_date year month day = true /\ ymd2ord year month day = ordinal.
Proof.
  intros Hord. unfold ord2ymd.
  set (n0 := ordinal - 1).
  set (n400 := n0 / 146097). set (r400 := n0 mod 146097).
  set (n100 := r400 / 36524). set (r100 := r400 mod 36524).
  set (n4 := r100 / 1461). set (r4 := r100 mod 1461).
  set (n1 := r4 / 365). set (r1 := r4 mod 365).
  assert (Hn0 : n0 = ordinal - 1) by reflexivity.
  assert (H400 : n0 = 146097 * n400 + r400 /\ 0 <= r400 < 146097)
    by (subst n400 r400; split;
        [apply Z.div_mod; lia | apply Z.mod_pos_bound; lia]).
  assert (H100 : r400 = 36524 * n100 + r100 /\ 0 <= r100 < 36524)
    by (subst n100 r100; split;
        [apply Z.div_mod; lia | apply Z.mod_pos_bound; lia]).
  assert (H4 : r100 = 1461 * n4 + r4 /\ 0 <= r4 < 1461)
    by (subst n4 r4; split;
        [apply Z.div_mod; lia | apply Z.mod_pos_bound; lia]).
  assert (H1 : r4 = 365 * n1 + r1 /\ 0 <= r1 < 365)
    by (subst n1 r1; split;
        [apply Z.div_mod; lia | apply Z.mod_pos_bound; lia]).
  assert (Hb400 : 0 <= n400)
    by (subst n400 n0; apply Z.div_pos; lia).
  assert (Hb100 : 0 <= n100 <= 4)
    by (subst n100; split;
        [apply Z.div_pos; lia
        | apply Z.lt_succ_r, Z.div_lt_upper_bound; lia]).
  assert (Hb4 : 0 <= n4 <= 24)
    by (subst n4; split;
        [apply Z.div_pos; lia
        | apply Z.lt_succ_r, Z.div_lt_upper_bound; lia]).
  assert (Hb1 : 0 <= n1 <= 4)
    by (subst n1; split;
        [apply Z.div_pos; lia
        | apply Z.lt_succ_r, Z.div_lt_upper_bound; lia]).
  clearbody n400 r400 n100 r100 n4 r4 n1 r1 n0.
  destruct (Z.eqb_spec n100 4) as [Hc100|Hc100].
  { (* the last day of a 400-year cycle *)
    rewrite orb_true_r.
    destruct (year_cycles n400 3 24 3) as [Hdays Hleap]; try lia.
    cbv zeta in Hdays, Hleap.
    replace (n400 * 400 + 1 + n100 * 100 + n4 * 4 + n1 - 1)
      with (400 * n400 + 100 * 3 + 4 * 24 + 3 + 1) by lia.
    unfold valid_date, ymd2ord, days_in_month, days_before_month.
    rewrite Hdays, Hleap. simpl.
    change (days_before_month_of true 12) with 335.
    change (days_in_month_of true 12) with 31.
    split; [|lia].
    repeat (apply andb_true_intro; split); apply Z.leb_le; lia. }
  destruct (Z.eqb_spec n1 4) as [Hc1|Hc1].
  { (* the last day of a 4-year cycle *)
    simpl.
    destruct (year_cycles n400 n100 n4 3) as [Hdays Hleap]; try lia.
    cbv zeta in Hdays, Hleap.
    replace (n400 * 400 + 1 + n100 * 100 + n4 * 4 + n1 - 1)
      with (400 * n400 + 100 * n100 + 4 * n4 + 3 + 1) by lia.
    unfold valid_date, ymd2ord, days_in_month, days_before_month.
    rewrite Hdays, Hleap.
    replace (n4 =? 24) with false by (symmetry; apply Z.eqb_neq; lia).
    simpl.
    change (days_before_month_of true 12) with 335.
    change (days_in_month_of true 12) with 31.
    split; [|lia].
    repeat (apply andb_true_intro; split); apply Z.leb_le; lia. }
  simpl.
  destruct (year_cycles n400 n100 n4 n1) as [Hdays Hleap]; try lia.
  cbv zeta in Hdays, Hleap.
  pose proof (month_and_day_spec
                ((n1 =? 3) && (negb (n4 =? 24) || (n100 =? 3))) r1
                ltac:(lia)) as Hmd.
  destruct (month_and_day r1 ((n1 =? 3) && (negb (n4 =? 24) || (n100 =? 3))))
    as [month day].
  destruct Hmd as (Hm & Hd & Hsum).
  replace (n400 * 400 + 1 + n100 * 100 + n4 * 4 + n1)
    with (400 * n400 + 100 * n100 + 4 * n4 + n1 + 1) by lia.
  unfold valid_date, ymd2ord, days_in_month, days_before_month.
  rewrite Hdays, Hleap. split; [|lia].
  repeat (apply andb_true_intro; split); apply Z.leb_le; lia.
Qed.

Lemma digit_value_char d :
  0 <= d <= 9 -> digit_value (digit_char d) = Some d.
Proof.
  intros Hd.
  assert (H : In d (seqZ 0 10)) by (apply list_elem_of_In, elem_of_seqZ; lia).
  simpl in H. repeat (destruct H as [<-|H]; [reflexivity|]). destruct H.
Qed.

Lemma digit_char_not_space d :
  0 <= d <= 9 -> is_space (digit_char d) = false.
Proof.
  intros Hd.
  assert (H : In d (seqZ 0 10)) by (apply list_elem_of_In, elem_of_seqZ; lia).
  simpl in H. repeat (destruct H as [<-|H]; [reflexivity|]). destruct H.
Qed.

Lemma digit_value_inv c d :
  digit_value c = Some d -> c = digit_char d /\ 0 <= d <= 9.
Proof.
  unfold digit_value, digit_char.
  destruct ((48 <=? Z.of_nat (nat_of_ascii c))
            && (Z.of_nat (nat_of_ascii c) <=? 57)) eqn:Hrange; [|discriminate].
  apply andb_prop in Hrange as [Hlo Hhi].
  apply Z.leb_le in Hlo, Hhi. intros [= <-]. split; [|lia].
  replace (48 + Z.to_nat (Z.of_nat (nat_of_ascii c) - 48))%nat
    with (nat_of_ascii c) by lia.
  by rewrite ascii_nat_embedding.
Qed.

Lemma space_not_digit c : is_space c = true -> digit_value c = None.
Proof.
  unfold is_space, digit_value. intros H.
  destruct ((48 <=? Z.of_nat (nat_of_ascii c))
            && (Z.of_nat (nat_of_ascii c) <=? 57)) eqn:Hrange; [|reflexivity].
  apply andb_prop in Hrange as [Hlo Hhi]. apply Z.leb_le in Hlo, Hhi.
  repeat (apply orb_prop in H as [H|H]);
    repeat (apply andb_prop in H as [H ?]);
    repeat match goal with
           | H : (_ <=? _) = true |- _ => apply Z.leb_le in H
           | H : (_ =? _) = true |- _ => apply Z.eqb_eq in H
           end; lia.
Qed.

Lemma space_to_lower c : is_space c = true -> to_lower c = c.
Proof.
  unfold is_space, to_lower. intros H.
  destruct ((65 <=? nat_of_ascii c)%nat && (nat_of_ascii c <=? 90)%nat)
    eqn:Hrange; [|reflexivity].
  apply andb_prop in Hrange as [Hlo Hhi].
  apply Nat.leb_le in Hlo, Hhi.
  repeat (apply orb_prop in H as [H|H]);
    repeat (apply andb_prop in H as [H ?]);
    repeat match goal with
           | H : (_ <=? _) = true |- _ => apply Z.leb_le in H
           | H : (_ =? _) = true |- _ => apply Z.eqb_eq in H
           end; lia.
Qed.

Lemma pad4_digits y :
  0 <= y <= 9999 ->
  exists a b c d,
    pad4 y = String (digit_char a) (String (digit_char b)
               (String (digit_char c) (String (digit_char d) "")))
    /\ 0 <= a <= 9 /\ 0 <= b <= 9 /\ 0 <= c <= 9 /\ 0 <= d <= 9
    /\ 1000 * a + 100 * b + 10 * c + d = y.
Proof.
  intros Hy. exists (y / 1000), (y / 100 mod 10), (y mod 100 / 10),
    (y mod 100 mod 10).
  split; [reflexivity|].
  repeat split; Z.div_mod_to_equations; lia.
Qed.


Lemma parse_d_complete day text c rest :
  day_text day text -> is_space c = true ->
  parse_d (text +:+ String c rest) = Some (day, String c rest).
Proof.
  intros [Hday Htext] Hc.
  pose proof (space_not_digit c Hc) as Hnd.
  assert (H : In day (seqZ 1 31))
    by (apply list_elem_of_In, elem_of_seqZ; lia).
  destruct Htext as [->|[H9 [->| ->]]].
  - simpl in H.
    repeat (destruct H as [<-|H]; [reflexivity|]). destruct H.
  - simpl in H.
    repeat (destruct H as [<-|H];
            [first [lia | simpl; unfold parse_d; simpl; by rewrite Hnd]|]).
    destruct H.
  - simpl in H.
    repeat (destruct H as [<-|H]; [first [lia | reflexivity]|]).
    destruct H.
Qed.

Lemma skip_spaces_complete gap rest :
  only_spaces gap = true ->
  match rest with
  | EmptyString => True
  | String c _ => is_space c = false
  end ->
  skip_spaces (gap +:+ rest) = rest.
Proof.
  intros Hgap Hrest. induction gap as [|c gap IH]; simpl in *.
  - destruct rest as [|c r]; [reflexivity|]. simpl. by rewrite Hrest.
  - apply andb_prop in Hgap as [Hc Hgap]. rewrite Hc. by apply IH.
Qed.

Lemma parse_spaces_complete gap rest :
  blank gap = true ->
  match rest with
  | EmptyString => True
  | String c _ => is_space c = false
  end ->
  parse_spaces (gap +:+ rest) = Some rest.
Proof.
  intros Hgap Hrest. destruct gap as [|c gap]; [discriminate|].
  simpl in *. apply andb_prop in Hgap as [Hc Hgap]. rewrite Hc.
  f_equal. by apply skip_spaces_complete.
Qed.

Lemma month_text_shape month text :
  month_text month text ->
  exists a b c, text = String a (String b (String c ""))
                /\ is_space a = false.
Proof.
  intros [Hm Hlower].
  assert (H : In month (seqZ 1 12))
    by (apply list_elem_of_In, elem_of_seqZ; lia).
  destruct text as [|a [|b [|c [|d text]]]].
  1-3,5: exfalso; simpl in H;
    repeat (destruct H as [<-|H]; [discriminate|]); destruct H.
  exists a, b, c. split; [reflexivity|].
  destruct (is_space a) eqn:Ha; [|reflexivity]. exfalso.
  apply space_to_lower in Ha as Hsame. simpl in Hlower.
  rewrite Hsame in Hlower.
  simpl in H.
  repeat (destruct H as [<-|H];
          [injection Hlower as -> _ _; discriminate|]).
  destruct H.
Qed.

Lemma parse_b_complete month text rest :
  month_text month text -> parse_b (text +:+ rest) = Some (month, rest).
Proof.
  intros Hmonth.
  destruct (month_text_shape _ _ Hmonth) as (a & b & c & -> & _).
  destruct Hmonth as [Hm Hlower].
  assert (H : In month (seqZ 1 12))
    by (apply list_elem_of_In, elem_of_seqZ; lia).
  change (lower (String a (String b (String c ""))))
    with (String (to_lower a) (String (to_lower b) (String (to_lower c) "")))
    in Hlower.
  change (String a (String b (String c "")) +:+ rest)
    with (String a (String b (String c rest))).
  unfold parse_b. rewrite Hlower.
  simpl in H.
  repeat (destruct H as [<-|H]; [reflexivity|]). destruct H.
Qed.

Lemma parse_Y_complete year :
  0 <= year <= 9999 -> parse_Y (pad4 year) = Some (year, "").
Proof.
  intros Hy.
  destruct (pad4_digits year Hy)
    as (a & b & c & d & -> & Ha & Hb & Hc & Hd & Hsum).
  unfold parse_Y.
  rewrite !digit_value_char by assumption. by rewrite Hsum.
Qed.

Lemma valid_date_year year month day :
  valid_date year month day = true -> 1 <= year <= 9999.
Proof.
  unfold valid_date. intros H.
  repeat (apply andb_prop in H as [H ?]).
  repeat match goal with
         | H : (_ <=? _) = true |- _ => apply Z.leb_le in H
         end. lia.
Qed.

Lemma strptime_complete s year month day :
  in_date_format s year month day ->
  strptime_d_b_Y s = Some (year, month, day).
Proof.
  intros (day_part & gap1 & month_part & gap2 & -> & Hday & Hgap1 & Hmonth
          & Hgap2 & Hvalid).
  pose proof (valid_date_year _ _ _ Hvalid) as Hyear.
  destruct (month_text_shape _ _ Hmonth) as (a & b & c & Hshape & Ha).
  destruct (pad4_digits year ltac:(lia))
    as (y1 & y2 & y3 & y4 & Hpad & Hy1 & _).
  unfold strptime_d_b_Y.
  destruct gap1 as [|g gap1]; [discriminate|].
  assert (Hg : is_space g = true)
    by (simpl in Hgap1; by apply andb_prop in Hgap1 as [? _]).
  change ((String g gap1) +:+ month_part +:+ "," +:+ gap2 +:+ pad4 year)
    with (String g (gap1 +:+ month_part +:+ "," +:+ gap2 +:+ pad4 year)).
  rewrite (parse_d_complete day day_part g _ Hday Hg).
  change (String g (gap1 +:+ month_part +:+ "," +:+ gap2 +:+ pad4 year))
    with ((String g gap1) +:+ month_part +:+ "," +:+ gap2 +:+ pad4 year).
  rewrite (parse_spaces_complete (String g gap1)) by (by subst month_part).
  rewrite (parse_b_complete month month_part _ Hmonth).
  change (parse_comma ("," +:+ gap2 +:+ pad4 year))
    with (Some (gap2 +:+ pad4 year)). cbv iota beta.
  rewrite (parse_spaces_complete gap2)
    by (try done; rewrite Hpad; by apply digit_char_not_space).
  rewrite (parse_Y_complete year) by lia.
  by rewrite Hvalid.
Qed.


Lemma pad2_digits a b :
  0 <= a <= 9 -> 0 <= b <= 9 ->
  pad2 (10 * a + b) = String (digit_char a) (String (digit_char b) "").
Proof.
  intros Ha Hb. unfold pad2.
  replace ((10 * a + b) / 10) with a by (Z.div_mod_to_equations; lia).
  replace ((10 * a + b) mod 10) with b by (Z.div_mod_to_equations; lia).
  reflexivity.
Qed.

Lemma parse_d_sound s day rest :
  parse_d s = Some (day, rest) ->
  exists text, s = text +:+ rest /\ day_text day text.
Proof.
  unfold parse_d. destruct s as [|c0 r0]; [discriminate|].
  destruct (digit_value c0) as [d0|] eqn:H0.
  - apply digit_value_inv in H0 as [-> Hd0].
    assert (Hone : (if 1 <=? d0 then Some (d0, r0) else None)
                   = Some (day, rest) ->
                   exists text, String (digit_char d0) r0 = text +:+ rest
                                /\ day_text day text).
    { destruct (Z.leb_spec 1 d0); [|discriminate]. intros [= <- <-].
      exists (String (digit_char d0) ""). split; [reflexivity|].
      split; [lia|]. right. split; [lia|]. by left. }
    destruct r0 as [|c1 r1]; [exact Hone|].
    destruct (digit_value c1) as [d1|] eqn:H1; [|exact Hone].
    apply digit_value_inv in H1 as [-> Hd1].
    destruct ((d0 =? 3) && (d1 <=? 1) || (d0 =? 1) || (d0 =? 2)
              || (d0 =? 0) && (1 <=? d1)) eqn:Htwo; [|exact Hone].
    intros [= <- <-].
    exists (String (digit_char d0) (String (digit_char d1) "")).
    split; [reflexivity|]. split.
    + repeat (apply orb_prop in Htwo as [Htwo|Htwo]);
        repeat (apply andb_prop in Htwo as [Htwo ?]);
        repeat match goal with
               | H : (_ <=? _) = true |- _ => apply Z.leb_le in H
               | H : (_ =? _) = true |- _ => apply Z.eqb_eq in H
               end; lia.
    + left. by rewrite pad2_digits.
  - destruct (Ascii.eqb_spec c0 " "%char) as [->|]; [|discriminate].
    destruct r0 as [|c1 r1]; [discriminate|].
    destruct (digit_value c1) as [d1|] eqn:H1; [|discriminate].
    apply digit_value_inv in H1 as [-> Hd1].
    destruct (Z.leb_spec 1 d1); [|discriminate]. intros [= <- <-].
    exists (String " " (String (digit_char d1) "")).
    split; [reflexivity|]. split; [lia|]. right. split; [lia|]. by right.
Qed.

Lemma skip_spaces_sound s :
  exists gap, s = gap +:+ skip_spaces s /\ only_spaces gap = true.
Proof.
  induction s as [|c s [gap [Hs Hgap]]]; [by exists ""|].
  cbn [skip_spaces]. destruct (is_space c) eqn:Hc.
  - exists (String c gap). split.
    + change (String c s = String c (gap +:+ skip_spaces s)). by f_equal.
    + cbn [only_spaces]. by rewrite Hc, Hgap.
  - by exists "".
Qed.

Lemma parse_spaces_sound s rest :
  parse_spaces s = Some rest ->
  exists gap, s = gap +:+ rest /\ blank gap = true.
Proof.
  unfold parse_spaces. destruct s as [|c s]; [discriminate|].
  destruct (is_space c) eqn:Hc; [|discriminate]. intros [= <-].
  destruct (skip_spaces_sound s) as [gap [Hs Hgap]].
  exists (String c gap). split.
  - change (String c s = String c (gap +:+ skip_spaces s)). by f_equal.
  - cbn [blank only_spaces]. by rewrite Hc, Hgap.
Qed.

Lemma month_index_sound abbr month :
  month_index abbr MONTH_ABBR 1 = Some month ->
  1 <= month <= 12 /\ abbr = nth (Z.to_nat (month - 1)) MONTH_ABBR "".
Proof.
  unfold MONTH_ABBR. cbn [month_index].
  repeat match goal with
         | |- context [String.eqb abbr ?name] =>
             destruct (String.eqb_spec abbr name) as [->|_];
             [intros [= <-]; split; [lia|reflexivity]|]
         end.
  discriminate.
Qed.

Lemma parse_b_sound s month rest :
  parse_b s = Some (month, rest) ->
  exists text, s = text +:+ rest /\ month_text month text.
Proof.
  unfold parse_b. destruct s as [|a [|b [|c s]]]; try discriminate.
  destruct (month_index _ MONTH_ABBR 1) as [m|] eqn:Hm; [|discriminate].
  intros [= <- <-]. apply month_index_sound in Hm as [Hm Habbr].
  exists (String a (String b (String c ""))). split; [reflexivity|].
  split; [exact Hm|]. exact Habbr.
Qed.

Lemma parse_comma_sound s rest :
  parse_comma s = Some rest -> s = "," +:+ rest.
Proof.
  unfold parse_comma. destruct s as [|c s]; [discriminate|].
  destruct (Ascii.eqb_spec c ","%char) as [->|]; [|discriminate].
  by intros [= <-].
Qed.

Lemma parse_Y_sound s year rest :
  parse_Y s = Some (year, rest) -> s = pad4 year +:+ rest.
Proof.
  unfold parse_Y. destruct s as [|a [|b [|c [|d s]]]]; try discriminate.
  destruct (digit_value a) as [da|] eqn:Ha; [|discriminate].
  destruct (digit_value b) as [db|] eqn:Hb; [|discriminate].
  destruct (digit_value c) as [dc|] eqn:Hc; [|discriminate].
  destruct (digit_value d) as [dd|] eqn:Hd; [|discriminate].
  apply digit_value_inv in Ha as [-> Ha], Hb as [-> Hb],
    Hc as [-> Hc], Hd as [-> Hd].
  intros [= <- <-]. unfold pad4.
  replace ((1000 * da + 100 * db + 10 * dc + dd) / 1000) with da
    by (Z.div_mod_to_equations; lia).
  replace ((1000 * da + 100 * db + 10 * dc + dd) / 100 mod 10) with db
    by (Z.div_mod_to_equations; lia).
  replace ((1000 * da + 100 * db + 10 * dc + dd) mod 100) with (10 * dc + dd)
    by (Z.div_mod_to_equations; lia).
  by rewrite pad2_digits.
Qed.

Lemma append_empty_r s : s +:+ "" = s.
Proof.
  induction s as [|c s IH]; [reflexivity|].
  change (String c (s +:+ "") = String c s). by f_equal.
Qed.

Lemma strptime_sound s year month day :
  strptime_d_b_Y s = Some (year, month, day) ->
  in_date_format s year month day.
Proof.
  unfold strptime_d_b_Y.
  destruct (parse_d s) as [[d s1]|] eqn:H1; [|discriminate].
  destruct (parse_spaces s1) as [s2|] eqn:H2; [|discriminate].
  destruct (parse_b s2) as [[m s3]|] eqn:H3; [|discriminate].
  destruct (parse_comma s3) as [s4|] eqn:H4; [|discriminate].
  destruct (parse_spaces s4) as [s5|] eqn:H5; [|discriminate].
  destruct (parse_Y s5) as [[y s6]|] eqn:H6; [|discriminate].
  destruct (String.eqb_spec s6 "") as [->|]; [|discriminate]. simpl.
  destruct (valid_date y m d) eqn:Hvalid; [|discriminate].
  intros [= <- <- <-].
  apply parse_d_sound in H1 as (day_part & -> & Hday).
  apply parse_spaces_sound in H2 as (gap1 & -> & Hgap1).
  apply parse_b_sound in H3 as (month_part & -> & Hmonth).
  apply parse_comma_sound in H4 as ->.
  apply parse_spaces_sound in H5 as (gap2 & -> & Hgap2).
  apply parse_Y_sound in H6 as ->.
  exists day_part, gap1, month_part, gap2.
  rewrite append_empty_r. repeat (split; [done|]). done.
Qed.



(** Day numbers: [ymd2ord] counts the days of the calendar, so a day
    number belongs to one date only. *)
Example ymd2ord_epoch : ymd2ord 1970 1 1 = EPOCH_ORDINAL.
Proof. reflexivity. Qed.

Lemma days_before_next_year year :
  days_before_year (year + 1) = days_before_year year + days_in_year year.
Proof.
  unfold days_before_year, days_in_year, is_leap. cbv zeta.
  replace (year + 1 - 1) with year by lia.
  destruct (Z.eqb_spec (year mod 4) 0) as [H4|H4];
    destruct (Z.eqb_spec (year mod 100) 0) as [H100|H100];
    destruct (Z.eqb_spec (year mod 400) 0) as [H400|H400]; simpl;
    Z.div_mod_to_equations; lia.
Qed.

Lemma days_before_year_mono y1 y2 :
  y1 <= y2 -> days_before_year y1 <= days_before_year y2.
Proof.
  intros H. unfold days_before_year. cbv zeta.
  Z.div_mod_to_equations. lia.
Qed.

Lemma day_of_year_bounds year month day :
  valid_date year month day = true ->
  1 <= days_before_month year month + day <= days_in_year year.
Proof.
  unfold valid_date, days_before_month, days_in_month, days_in_year.
  intros H. repeat (apply andb_prop in H as [H ?]).
  repeat match goal with
         | H : (_ <=? _) = true |- _ => apply Z.leb_le in H
         end.
  assert (Hm : In month (seqZ 1 12))
    by (apply list_elem_of_In, elem_of_seqZ; lia).
  simpl in Hm.
  destruct (is_leap year);
    repeat (destruct Hm as [<-|Hm];
            [unfold days_before_month_of, days_in_month_of in *;
             simpl in *; lia|]);
    destruct Hm.
Qed.

Lemma months_in_order leapyear m1 m2 :
  1 <= m1 -> m1 < m2 -> m2 <= 12 ->
  days_before_month_of leapyear m1 + days_in_month_of leapyear m1
  <= days_before_month_of leapyear m2.
Proof.
  intros H1 H12 H2.
  assert (Hm1 : In m1 (seqZ 1 12))
    by (apply list_elem_of_In, elem_of_seqZ; lia).
  assert (Hm2 : In m2 (seqZ 1 12))
    by (apply list_elem_of_In, elem_of_seqZ; lia).
  simpl in Hm1, Hm2.
  destruct leapyear;
    repeat (destruct Hm1 as [<-|Hm1];
            [repeat (destruct Hm2 as [<-|Hm2];
                     [first [lia
                            | unfold days_before_month_of, days_in_month_of;
                              simpl; lia]|]);
             destruct Hm2|]);
    destruct Hm1.
Qed.

Lemma ymd2ord_inj y1 m1 d1 y2 m2 d2 :
  valid_date y1 m1 d1 = true -> valid_date y2 m2 d2 = true ->
  ymd2ord y1 m1 d1 = ymd2ord y2 m2 d2 ->
  (y1, m1, d1) = (y2, m2, d2).
Proof.
  intros Hv1 Hv2 Heq.
  pose proof (day_of_year_bounds _ _ _ Hv1) as Hb1.
  pose proof (day_of_year_bounds _ _ _ Hv2) as Hb2.
  unfold ymd2ord in Heq.
  assert (Hy : y1 = y2).
  { destruct (Z.lt_trichotomy y1 y2) as [Hlt|[Heq'|Hgt]]; [|done|].
    - pose proof (days_before_next_year y1) as Hn.
      pose proof (days_before_year_mono (y1 + 1) y2 ltac:(lia)). lia.
    - pose proof (days_before_next_year y2) as Hn.
      pose proof (days_before_year_mono (y2 + 1) y1 ltac:(lia)). lia. }
  subst y2.
  unfold valid_date, days_in_month in Hv1, Hv2.
  repeat (apply andb_prop in Hv1 as [Hv1 ?]).
  repeat (apply andb_prop in Hv2 as [Hv2 ?]).
  repeat match goal with
         | H : (_ <=? _) = true |- _ => apply Z.leb_le in H
         end.
  unfold days_before_month in Heq.
  assert (Hm : m1 = m2).
  { destruct (Z.lt_trichotomy m1 m2) as [Hlt|[Heq'|Hgt]]; [|done|].
    - pose proof (months_in_order (is_leap y1) m1 m2). lia.
    - pose proof (months_in_order (is_leap y1) m2 m1). lia. }
  subst m2. f_equal. lia.
Qed.

(** The date [utcfromtimestamp] gives is the date whose day contains the
    timestamp. *)
Lemma utcfromtimestamp_spec t :
  MIN_TIMESTAMP <= t <= MAX_TIMESTAMP ->
  exists year month day,
    utcfromtimestamp t = Return (year, month, day)
    /\ valid_date year month day = true
    /\ 86400 * (ymd2ord year month day - EPOCH_ORDINAL) <= t
       < 86400 * (ymd2ord year month day - EPOCH_ORDINAL + 1).
Proof.
  unfold MIN_TIMESTAMP, MAX_TIMESTAMP, EPOCH_ORDINAL. intros Ht.
  unfold utcfromtimestamp, MIN_TIMESTAMP, MAX_TIMESTAMP, EPOCH_ORDINAL.
  replace ((-62135596800 <=? t) && (t <=? 253402300799)) with true
    by (symmetry; apply andb_true_intro; split; apply Z.leb_le; lia).
  pose proof (Z.div_mod t 86400 ltac:(lia)) as Hdiv.
  pose proof (Z.mod_pos_bound t 86400 ltac:(lia)) as Hmod.
  pose proof (ord2ymd_spec (719163 + t / 86400) ltac:(lia)) as Hord.
  destruct (ord2ymd (719163 + t / 86400)) as [[year month] day].
  destruct Hord as [Hvalid Hymd].
  exists year, month, day. split; [reflexivity|]. split; [exact Hvalid|].
  lia.
Qed.



(** ** Runs on the example worlds *)

Example request_always_429 :
  let res := request always_429 "u" false 0 0 initial_state in
  fst res = Return None
  /\ net_calls (snd res) = replicate 11 "u"
  /\ sleeps (snd res) = [1; 2; 4; 8; 16; 32; 60; 60; 60; 60]
  /\ last (console (snd res)) = Some (ReachedMaxAttempts "u")
  /\ response_cache (snd res) = ∅.
Proof. cbv zeta. repeat split; vm_compute; reflexivity. Qed.

Example request_retry_then_ok :
  let res := request (retry_then_ok JNull) "u" false 0 0 initial_state in
  fst res = Return (Some (ok_response JNull))
  /\ net_calls (snd res) = ["u"; "u"]
  /\ sleeps (snd res) = [1]
  /\ console (snd res) = [Got429 "u" 1; Waiting 1 "u"]
  /\ response_cache (snd res) !! "u" = Some (ok_response JNull).
Proof. cbv zeta. repeat split; vm_compute; reflexivity. Qed.

Example request_500_reported :
  let res := request always_500 "u" false 0 0 initial_state in
  fst res = Raise (RequestException (Some internal_server_error))
  /\ console (snd res)
     = [FetchException "u" (RequestException (Some internal_server_error));
        ResponseContent (Some "Internal Server Error")]
  /\ sleeps (snd res) = [].
Proof. cbv zeta. repeat split; vm_compute; reflexivity. Qed.

Example format_date_examples :
  format_date (JStr "21 Mar, 2020") = "2020-03-21"
  /\ format_date (JStr "1 Mar, 2020") = "2020-03-01"
  /\ format_date (JStr "29 Feb, 2020") = "2020-02-29"
  /\ format_date (JStr "29 Feb, 2021") = "Unknown Release Date"
  /\ format_date (JStr "Mar 21, 2020") = "Unknown Release Date"
  /\ format_date (JStr "21 Mar, 2020 ") = "Unknown Release Date"
  /\ format_date (JStr "Coming soon") = "Unknown Release Date"
  /\ format_date JNull = "Unknown Release Date".
Proof. repeat split; reflexivity. Qed.

Example last_played_examples :
  last_played (JInt 1584748800) = Return "2020-03-21"
  /\ last_played (JInt 1584835199) = Return "2020-03-21"
  /\ last_played (JInt 1584835200) = Return "2020-03-22"
  /\ last_played (JInt 951782400) = Return "2000-02-29"
  /\ last_played (JInt 0) = Return "Never Played"
  /\ last_played JNull = Return "Never Played"
  /\ last_played (JInt 253402300800) = Raise ValueError.
Proof. repeat split; reflexivity. Qed.

Example main_writes_one_row :
  let res := main library_of_440 no_repr (Some "key")
               (Some "76561197960287930") initial_state in
  fst res = Return tt
  /\ csvfile (snd res)
     = Some [{| Name := JStr "Team Fortress 2";
                Review_Rating := JStr "Very Positive";
                Metacritic_Score := JInt 92;
                Playtime_in_Minutes := JInt 1200;
                Date_Released := "2007-10-10";
                Last_Played_Added := "2020-03-21";
                Beaten := true |}]
  /\ length (net_calls (snd res)) = 4%nat
  /\ console (snd res) = [].
Proof. cbv zeta. repeat split; vm_compute; reflexivity. Qed.

Example main_without_steam_id :
  main library_of_440 no_repr (Some "key") None initial_state
  = (Return tt, printed NoSteamId initial_state).
Proof. reflexivity. Qed.

(** * Further properties *)

(** ** More on [request] *)

Section RequestMore.

Variable server : nat -> string -> NetResult.

(** X1. A failure that is not an HTTP 429 is never retried: the call makes
    its one request, re-raises the exception and leaves the cache as it
    was; it prints the two diagnostic lines unless [ignore_error] is set. *)
Theorem request_error_not_retried url ignore_error w a s e :
  response_cache s !! url = None ->
  reply_outcome (server (length (net_calls s)) url) = inr e ->
  is_429 e = false ->
  let res := request server url ignore_error w a s in
  fst res = Raise e
  /\ net_calls (snd res) = net_calls s ++ [url]
  /\ sleeps (snd res) = sleeps s ++ (if 0 <? w then [w] else [])
  /\ response_cache (snd res) = response_cache s
  /\ console (snd res)
     = console s ++ (if 0 <? w then [Waiting w url] else [])
       ++ (if ignore_error then []
           else [FetchException url e;
                 ResponseContent (e_response_content e)]).
Proof.
  intros Hc Hr H429. cbv zeta. rewrite request_step, Hc. cbv zeta.
  rewrite Hr, H429. unfold_states.
  destruct ignore_error, (0 <? w); simpl; rewrite ?app_nil_r, <- ?app_assoc;
    repeat split; reflexivity.
Qed.

(** X2. Whatever [request] raises is a [RequestException] that the
    network produced for a cache miss and that is not an HTTP 429: a 429
    is always absorbed, by a retry or by giving up.  Raising leaves the
    cache as it was. *)
Theorem request_raises_no_429 url ignore_error w a s e :
  fst (request server url ignore_error w a s) = Raise e ->
  is_RequestException e = true
  /\ is_429 e = false
  /\ response_cache s !! url = None
  /\ response_cache (snd (request server url ignore_error w a s))
     = response_cache s.
Proof.
  intros Hraise.
  split; [by eapply request_raises|].
  split; [|split].
  - revert w a s Hraise.
    apply (request_induction server url ignore_error
             (fun _ _ _ res => fst res = Raise e -> is_429 e = false));
      simpl; try discriminate; auto.
    by intros w a s e' _ _ H429 [= <-].
  - destruct (response_cache s !! url) as [r|] eqn:Hc; [|reflexivity].
    by rewrite (request_cached server url ignore_error w a s r Hc) in Hraise.
  - apply (post_no_response _ _ _ _
             (request_effects server url ignore_error w a s)).
    intros r Hr. by rewrite Hr in Hraise.
Qed.

Lemma request_cost_from url ignore_error (n : nat) :
  forall w a s,
    a = MAX_ATTEMPTS - Z.of_nat n ->
    let res := request server url ignore_error w a s in
    snd res = s
    \/ exists j : nat,
         (j <= n)%nat
         /\ sleeps (snd res)
            = sleeps s ++ (if 0 <? w then [w] else [])
              ++ take j (waits_after w n)
         /\ net_calls (snd res) = net_calls s ++ replicate (S j) url.
Proof.
  induction n as [|n IH]; intros w a s Ha; cbv zeta;
    rewrite request_step;
    (destruct (response_cache s !! url) as [r|] eqn:Hc; [by left|]);
    right; cbv zeta;
    (destruct (reply_outcome (server (length (net_calls s)) url))
       as [r|e] eqn:Hr;
     [exists 0%nat; unfold_states; destruct (0 <? w); simpl;
      rewrite ?app_nil_r; repeat split; (done || lia)|]);
    (destruct (is_429 e) eqn:H429;
     [|exists 0%nat; unfold_states; destruct ignore_error, (0 <? w); simpl;
       rewrite ?app_nil_r; repeat split; (done || lia)]).
  - replace (MAX_ATTEMPTS <? a + 1) with true
      by (symmetry; apply Z.ltb_lt; lia).
    exists 0%nat. unfold_states. destruct (0 <? w); simpl;
      rewrite ?app_nil_r; repeat split; (done || lia).
  - replace (MAX_ATTEMPTS <? a + 1) with false
      by (symmetry; apply Z.ltb_ge; lia).
    set (s' := printed (Got429 url (next_wait w)) (sent url (waited w url s))).
    assert (Hcalls : net_calls s' = net_calls s ++ [url]).
    { unfold s'. unfold_states. destruct (0 <? w); reflexivity. }
    assert (Hsleeps : sleeps s' = sleeps s ++ (if 0 <? w then [w] else [])).
    { unfold s'. unfold_states. destruct (0 <? w); simpl;
        by rewrite ?app_nil_r. }
    destruct (IH (next_wait w) (a + 1) s' ltac:(lia))
      as [Hsame|(j & Hj & Hs & Hn)].
    + exists 0%nat. rewrite Hsame, Hcalls, Hsleeps. simpl.
      rewrite ?app_nil_r. repeat split; (done || lia).
    + exists (S j). rewrite Hs, Hn, Hsleeps, Hcalls, next_wait_pos.
      simpl. rewrite <- !app_assoc. simpl.
      repeat split; (done || lia).
Qed.

Lemma backoff_total (j : nat) :
  total_seconds (take j backoff_waits) <= 303.
Proof.
  do 11 (destruct j as [|j]; [vm_compute; discriminate|]).
  vm_compute. discriminate.
Qed.

(** X3. Whatever the network answers, one call of [request] makes at most
    eleven requests, all for its URL, sleeps a prefix of the schedule 1, 2,
    4, 8, 16, 32, 60, 60, 60, 60 with one sleep before each request after
    the first, and so sleeps at most 303 seconds. *)
Theorem request_bounded url ignore_error s :
  let res := request server url ignore_error 0 0 s in
  exists requests : nat,
    (requests <= 11)%nat
    /\ net_calls (snd res) = net_calls s ++ replicate requests url
    /\ sleeps (snd res) = sleeps s ++ take (requests - 1) backoff_waits
    /\ total_seconds (take (requests - 1) backoff_waits) <= 303.
Proof.
  cbv zeta.
  destruct (request_cost_from url ignore_error 10 0 0 s eq_refl)
    as [Hsame|(j & Hj & Hs & Hn)].
  - exists 0%nat. rewrite Hsame. simpl. rewrite !app_nil_r.
    repeat split; (done || lia).
  - exists (S j). rewrite Hs, Hn. simpl. rewrite Nat.sub_0_r.
    split; [lia|]. split; [done|]. split; [done|]. apply backoff_total.
Qed.

Lemma request_after_429s url ignore_error (n : nat) :
  forall w a s (k : nat),
    a = MAX_ATTEMPTS - Z.of_nat n ->
    (k <= n)%nat ->
    response_cache s !! url = None ->
    (forall i, (i < k)%nat ->
       reply_429 (server (length (net_calls s) + i) url) = true) ->
    let res := request server url ignore_error w a s in
    match reply_outcome (server (length (net_calls s) + k) url) with
    | inl r =>
        fst res = Return (Some r)
        /\ response_cache (snd res) = <[url := r]> (response_cache s)
    | inr e =>
        is_429 e = false ->
        fst res = Raise e /\ response_cache (snd res) = response_cache s
    end.
Proof.
  induction n as [|n IH]; intros w a s k Ha Hk Hc H429; cbv zeta.
  all: destruct k as [|k]; [|try lia].
  all: try (
    rewrite Nat.add_0_r, request_step, Hc; cbv zeta;
    destruct (reply_outcome (server (length (net_calls s)) url))
      as [r|e] eqn:Hr;
    [unfold_states; by destruct (0 <? w)
    |intros He; rewrite He; unfold_states;
     by destruct ignore_error, (0 <? w)]).
  rewrite request_step, Hc. cbv zeta.
  destruct (reply_429_true _ (H429 0%nat ltac:(lia))) as (e & Hr & He).
  rewrite Nat.add_0_r in Hr. rewrite Hr, He.
  replace (MAX_ATTEMPTS <? a + 1) with false
    by (symmetry; apply Z.ltb_ge; lia).
  set (s' := printed (Got429 url (next_wait w)) (sent url (waited w url s))).
  assert (Hcache : response_cache s' = response_cache s).
  { unfold s'. unfold_states. destruct (0 <? w); reflexivity. }
  assert (Hcalls : length (net_calls s') = S (length (net_calls s))).
  { unfold s'. unfold_states. destruct (0 <? w); simpl;
      rewrite length_app; simpl; lia. }
  pose proof (IH (next_wait w) (a + 1) s' k ltac:(lia) ltac:(lia)) as IH'.
  cbv zeta in IH'. rewrite Hcache, Hcalls in IH'.
  replace (length (net_calls s) + S k)%nat
    with (S (length (net_calls s)) + k)%nat by lia.
  apply IH'; [exact Hc|].
  intros i Hi.
  replace (S (length (net_calls s)) + i)%nat
    with (length (net_calls s) + S i)%nat by lia.
  apply H429. lia.
Qed.

(** X4. After up to ten 429 replies in a row, the next reply decides the
    call: a successful response is returned and stored in the cache under
    the URL; any other failure is raised and nothing is stored. *)
Theorem request_retry_outcome url ignore_error s (k : nat) :
  (k <= 10)%nat ->
  response_cache s !! url = None ->
  (forall i, (i < k)%nat ->
     reply_429 (server (length (net_calls s) + i) url) = true) ->
  let res := request server url ignore_error 0 0 s in
  (forall r,
     reply_outcome (server (length (net_calls s) + k) url) = inl r ->
     fst res = Return (Some r)
     /\ response_cache (snd res) = <[url := r]> (response_cache s))
  /\ (forall e,
        reply_outcome (server (length (net_calls s) + k) url) = inr e ->
        is_429 e = false ->
        fst res = Raise e /\ response_cache (snd res) = response_cache s).
Proof.
  intros Hk Hc H429.
  pose proof (request_after_429s url ignore_error 10 0 0 s k
                eq_refl Hk Hc H429) as H.
  cbv zeta in *. split.
  - intros r Hr. by rewrite Hr in H.
  - intros e Hr He. rewrite Hr in H. by apply H.
Qed.

(** X5. A call of [request] changes the cache at its own URL only, and
    only when that URL was not cached: entries of other URLs, present or
    absent, stay as they are, and a cached URL makes the call a no-op. *)
Theorem request_cache_frame url ignore_error w a s :
  let res := request server url ignore_error w a s in
  (forall u, u <> url ->
     response_cache (snd res) !! u = response_cache s !! u)
  /\ (forall r, response_cache s !! url = Some r ->
        res = (Return (Some r), s)).
Proof.
  cbv zeta. split.
  - intros u Hu.
    destruct (request_effects server url ignore_error w a s)
      as [_ _ Hkept Hnew _ _ _].
    destruct (response_cache s !! u) as [r|] eqn:Hold.
    + by apply Hkept.
    + destruct (response_cache (snd (request server url ignore_error w a s))
                  !! u) as [r|] eqn:Hnow; [|reflexivity].
      destruct (Hnew u r Hnow) as [Hwas|(-> & _)]; [congruence|done].
  - intros r Hc. by apply request_cached.
Qed.

End RequestMore.

Lemma request_error_not_retried_witness :
  let res := request always_500 "u" false 0 0 initial_state in
  fst res = Raise (RequestException (Some internal_server_error))
  /\ net_calls (snd res) = [] ++ ["u"]
  /\ sleeps (snd res) = [] ++ []
  /\ response_cache (snd res) = ∅
  /\ console (snd res)
     = [] ++ []
       ++ [FetchException "u" (RequestException (Some internal_server_error));
           ResponseContent (Some "Internal Server Error")].
Proof.
  apply (request_error_not_retried always_500 "u" false 0 0 initial_state
           (RequestException (Some internal_server_error)));
    reflexivity.
Defined.

Lemma request_raises_no_429_witness :
  is_RequestException (RequestException (Some internal_server_error)) = true
  /\ is_429 (RequestException (Some internal_server_error)) = false
  /\ response_cache initial_state !! "u" = None
  /\ response_cache (snd (request always_500 "u" true 0 0 initial_state))
     = response_cache initial_state.
Proof.
  apply (request_raises_no_429 always_500 "u" true 0 0 initial_state).
  reflexivity.
Defined.

Lemma request_cache_frame_witness :
  response_cache (snd (request (always_ok JNull) "u" false 0 0 initial_state))
    !! "v"
  = response_cache initial_state !! "v".
Proof.
  apply (proj1 (request_cache_frame (always_ok JNull) "u" false 0 0
                  initial_state) "v").
  discriminate.
Defined.

Lemma request_retry_outcome_witness :
  let res := request (retry_then_ok JNull) "u" false 0 0 initial_state in
  fst res = Return (Some (ok_response JNull))
  /\ response_cache (snd res) = <["u" := ok_response JNull]> ∅.
Proof.
  refine (proj1 (request_retry_outcome (retry_then_ok JNull) "u" false
                   initial_state 1 _ _ _) _ _).
  - lia.
  - reflexivity.
  - intros i Hi. destruct i; [reflexivity|lia].
  - reflexivity.
Defined.

(** ** The other extractors *)

Section Extractors.

Variable server : nat -> string -> NetResult.
Variable py_repr : JSON -> string.

(** X6. [get_review_summary] returns ["Error Fetching Reviews"] when its
    call of [request] raises, ["No Reviews"] when the response object has
    no [query_summary], and otherwise whatever reading
    [review_score_desc] out of the summary gives, which is a [KeyError]
    when that key is missing.  It raises an [AttributeError] when
    [request] returned [None] and a decoding error on a body that is not
    JSON; it changes the state only through its call of [request]. *)
Theorem get_review_summary_cases appid s :
  let fetched := request server (review_url py_repr appid) true 0 0 s in
  let result := get_review_summary server py_repr appid s in
  snd result = snd fetched
  /\ (forall e, fst fetched = Raise e ->
        fst result = Return (JStr "Error Fetching Reviews"))
  /\ (fst fetched = Return None -> fst result = Raise AttributeError)
  /\ (forall r, fst fetched = Return (Some r) ->
        (json r = None -> fst result = Raise JSONDecodeError)
        /\ (forall fields, json r = Some (JObj fields) ->
              (dict_lookup "query_summary" fields = None ->
                 fst result = Return (JStr "No Reviews"))
              /\ (forall summary,
                    dict_lookup "query_summary" fields = Some summary ->
                    fst result = py_getitem summary "review_score_desc"))).
Proof.
  cbv zeta. unfold get_review_summary. rewrite fetch_or_return_eq.
  destruct (request server (review_url py_repr appid) true 0 0 s)
    as [[response|e] s1]; simpl.
  - split; [reflexivity|]. split; [discriminate|].
    split; [by intros [= ->]|].
    intros r [= ->]. unfold review_summary_from. simpl.
    split; [by intros ->|].
    intros fields ->. simpl. split.
    + intros Hnone. by rewrite Hnone.
    + intros summary Hsome. by rewrite Hsome.
  - split; [reflexivity|]. split; [reflexivity|].
    split; discriminate.
Qed.


(** X8. When the response has an entry for the application but the entry
    has no [data] key, as for an application the store no longer lists,
    both [get_metacritic_score] and [get_release_date] raise a [KeyError]
    for ["data"] instead of returning their sentinels. *)
Theorem appdetails_without_data_raises appid s r fields entry :
  fst (request server (metacritic_url py_repr appid) true 0 0 s)
  = Return (Some r) ->
  json r = Some (JObj fields) ->
  dict_lookup (py_str py_repr appid) fields = Some (JObj entry) ->
  dict_lookup "data" entry = None ->
  fst (get_metacritic_score server py_repr appid s) = Raise (KeyError "data")
  /\ fst (get_release_date server py_repr appid s) = Raise (KeyError "data").
Proof.
  intros Hfetch Hjson Hentry Hdata.
  unfold get_metacritic_score, get_release_date.
  change (release_date_url py_repr appid) with (metacritic_url py_repr appid).
  rewrite !fetch_or_return_eq.
  destruct (request server (metacritic_url py_repr appid) true 0 0 s)
    as [o s1]. simpl in Hfetch. subst o.
  unfold metacritic_score_from, release_date_from, appdetails_has. simpl.
  rewrite Hjson. simpl. rewrite Hentry. simpl. rewrite Hdata. simpl.
  by split.
Qed.

(** X9. [get_owned_games] lets every failure through: what [request]
    raises, an [AttributeError] when [request] returned [None], a decoding
    error on a body that is not JSON, and a [KeyError] when the response
    object lacks [response] or [response] lacks [games].  Otherwise it
    returns the nested [games] value as it is. *)
Theorem get_owned_games_cases steam_id api_key s :
  let fetched :=
    request server (owned_games_url steam_id api_key) false 0 0 s in
  let result := get_owned_games server steam_id api_key s in
  snd result = snd fetched
  /\ (forall e, fst fetched = Raise e -> fst result = Raise e)
  /\ (fst fetched = Return None -> fst result = Raise AttributeError)
  /\ (forall r, fst fetched = Return (Some r) ->
        (json r = None -> fst result = Raise JSONDecodeError)
        /\ (forall fields, json r = Some (JObj fields) ->
              (dict_lookup "response" fields = None ->
                 fst result = Raise (KeyError "response"))
              /\ (forall inner,
                    dict_lookup "response" fields = Some (JObj inner) ->
                    (dict_lookup "games" inner = None ->
                       fst result = Raise (KeyError "games"))
                    /\ (forall games,
                          dict_lookup "games" inner = Some games ->
                          fst result = Return games)))).
Proof.
  cbv zeta. unfold get_owned_games, bind, lift.
  destruct (request server (owned_games_url steam_id api_key) false 0 0 s)
    as [[response|e] s1]; simpl.
  - split; [reflexivity|]. split; [discriminate|].
    split; [by intros [= ->]|].
    intros r [= ->]. simpl. split; [by intros ->|].
    intros fields ->. simpl. split.
    + intros Hnone. by rewrite Hnone.
    + intros inner Hinner. rewrite Hinner. simpl. split.
      * intros Hnone. by rewrite Hnone.
      * intros games Hgames. by rewrite Hgames.
  - split; [reflexivity|]. split; [by intros e' [= ->]|].
    split; discriminate.
Qed.

End Extractors.

Lemma get_review_summary_cases_witness :
  fst (get_review_summary (always_ok review_summary_data) no_repr (JInt 440)
         initial_state)
  = py_getitem (JObj [("review_score", JInt 8);
                      ("review_score_desc", JStr "Very Positive")])
      "review_score_desc".
Proof.
  pose proof (get_review_summary_cases (always_ok review_summary_data)
                no_repr (JInt 440) initial_state) as H.
  cbv zeta in H. destruct H as (_ & _ & _ & H).
  destruct (H (ok_response review_summary_data) eq_refl) as [_ Hobj].
  destruct (Hobj _ eq_refl) as [_ Hsummary].
  exact (Hsummary _ eq_refl).
Defined.


Lemma appdetails_without_data_raises_witness :
  fst (get_metacritic_score (always_ok appdetails_unavailable) no_repr
         (JInt 440) initial_state) = Raise (KeyError "data")
  /\ fst (get_release_date (always_ok appdetails_unavailable) no_repr
            (JInt 440) initial_state) = Raise (KeyError "data").
Proof.
  apply (appdetails_without_data_raises (always_ok appdetails_unavailable)
           no_repr (JInt 440) initial_state
           (ok_response appdetails_unavailable)
           [("440", JObj [("success", JBool false)])]
           [("success", JBool false)]);
    reflexivity.
Defined.

Lemma get_owned_games_cases_witness :
  fst (get_owned_games (always_ok owned_games_data) "76561197960287930"
         (Some "key") initial_state)
  = Raise (KeyError "games").
Proof.
  pose proof (get_owned_games_cases (always_ok owned_games_data)
                "76561197960287930" (Some "key") initial_state) as H.
  cbv zeta in H. destruct H as (_ & _ & _ & H).
  destruct (H (ok_response owned_games_data) eq_refl) as [_ Hobj].
  destruct (Hobj _ eq_refl) as [_ Hinner].
  destruct (Hinner _ eq_refl) as [Hnone _].
  exact (Hnone eq_refl).
Defined.

(** ** More on the report *)

Section ReportMore.

Variable server : nat -> string -> NetResult.
Variable py_repr : JSON -> string.
Variable api_key : option string.

Lemma process_game_unreadable steam_id game s e :
  read_game game = Raise e ->
  process_game server py_repr api_key steam_id game s = (Raise e, s).
Proof. intros Hread. unfold process_game, bind, lift. by rewrite Hread. Qed.

Lemma process_game_readable steam_id game s :
  readable game = true ->
  fst (process_game server py_repr api_key steam_id game s) = Return tt.
Proof.
  unfold readable. intros Hread.
  destruct (read_game game) as [[[[appid name] playtime] date]|] eqn:Hgame;
    [|discriminate].
  by destruct (process_game_effects server py_repr api_key steam_id game s
                 _ _ _ _ Hgame) as [Hret _].
Qed.

(** X10. A game whose fields cannot be read before the [try] (no [appid],
    no [name], a last-played timestamp that is no date) is not skipped:
    the loop raises that error at this game, with the state left by the
    games before it, and none of the later games is processed. *)
Theorem process_games_aborts steam_id before game after e :
  Forall (fun g => readable g = true) before ->
  read_game game = Raise e ->
  forall s,
    process_games server py_repr api_key steam_id (before ++ game :: after) s
    = (Raise e,
       snd (process_games server py_repr api_key steam_id before s)).
Proof.
  intros Hbefore Hread.
  induction Hbefore as [|g before Hg _ IH]; intros s.
  - simpl. unfold bind. by rewrite (process_game_unreadable _ _ _ _ Hread).
  - simpl. unfold bind.
    pose proof (process_game_readable steam_id g s Hg) as Hret.
    destruct (process_game server py_repr api_key steam_id g s) as [o s1].
    simpl in Hret. subst o. apply IH.
Qed.

(** The enrichment of one game, when it returns, has appended one row that
    carries the name, the playtime and the last-played date it was given. *)
Lemma enrich_and_write_row steam_id appid name playtime date s :
  let res := enrich_and_write server py_repr api_key steam_id
               appid name playtime date s in
  fst res = Return tt ->
  exists row,
    csvfile (snd res) = Some (default [] (csvfile s) ++ [row])
    /\ Name row = name /\ Playtime_in_Minutes row = playtime
    /\ Last_Played_Added row = date.
Proof.
  cbv zeta. unfold enrich_and_write, bind.
  pose proof (fetch_or_return_extends server (review_url py_repr appid)
                (JStr "Error Fetching Reviews") review_summary_from s) as H1.
  fold (get_review_summary server py_repr appid) in H1.
  destruct (get_review_summary server py_repr appid s) as [[review|e] s1];
    simpl in H1; [|discriminate].
  pose proof (fetch_or_return_extends server (metacritic_url py_repr appid)
                (JStr "Error Fetching Metacritic Score")
                (metacritic_score_from py_repr appid) s1) as H2.
  fold (get_metacritic_score server py_repr appid) in H2.
  destruct (get_metacritic_score server py_repr appid s1) as [[score|e] s2];
    simpl in H2; [|discriminate].
  pose proof (fetch_or_return_extends server (release_date_url py_repr appid)
                "Error Fetching Release Date"
                (release_date_from py_repr appid) s2) as H3.
  fold (get_release_date server py_repr appid) in H3.
  destruct (get_release_date server py_repr appid s2) as [[released|e] s3];
    simpl in H3; [|discriminate].
  pose proof (fetch_or_return_extends server
                (achievements_url py_repr appid steam_id api_key)
                false beaten_from s3) as H4.
  fold (is_game_beaten server py_repr appid steam_id api_key) in H4.
  destruct (is_game_beaten server py_repr appid steam_id api_key s3)
    as [[beaten|e] s4]; simpl in H4; [|discriminate].
  intros _. simpl.
  destruct H1 as [Hf1 _], H2 as [Hf2 _], H3 as [Hf3 _], H4 as [Hf4 _].
  rewrite Hf4, Hf3, Hf2, Hf1.
  eexists. split; [reflexivity|]. by repeat split.
Qed.

Lemma process_games_rows steam_id games :
  Forall (fun game => readable game = true) games ->
  forall s rows,
    csvfile s = Some rows ->
    exists new_rows,
      csvfile (snd (process_games server py_repr api_key steam_id games s))
      = Some (rows ++ new_rows)
      /\ Forall2 row_of_game new_rows
           (written_games server py_repr api_key steam_id games s).
Proof.
  induction 1 as [|game games Hgame _ IH]; intros s rows Hrows.
  - exists []. simpl. rewrite app_nil_r. by split.
  - cbn [written_games].
    pose proof (process_game_readable steam_id game s Hgame) as Hret.
    unfold readable in Hgame.
    destruct (read_game game) as [[[[appid name] playtime] date]|] eqn:Hread;
      [|discriminate].
    assert (Heq :
      process_games server py_repr api_key steam_id (game :: games) s
      = process_games server py_repr api_key steam_id games
          (snd (process_game server py_repr api_key steam_id game s))).
    { simpl. unfold bind.
      destruct (process_game server py_repr api_key steam_id game s)
        as [o s1]. simpl in Hret. by subst o. }
    rewrite Heq.
    assert (Hstep :
      process_game server py_repr api_key steam_id game s
      = try_except
          (enrich_and_write server py_repr api_key steam_id
             appid name playtime date)
          is_Exception
          (fun e => print (GameException appid name e)) s).
    { unfold process_game, bind, lift. by rewrite Hread. }
    pose proof (enrich_and_write_row steam_id appid name playtime date s)
      as Hrow.
    pose proof (enrich_and_write_effects server py_repr api_key steam_id
                  appid name playtime date s) as [_ Hfile].
    cbv zeta in Hrow, Hfile.
    unfold enrichment_raises. rewrite Hread.
    rewrite Hstep. unfold try_except.
    destruct (enrich_and_write server py_repr api_key steam_id
                appid name playtime date s) as [[[]|e] s1]; simpl in *.
    + destruct (Hrow eq_refl) as (row & Hcsv & Hname & Hplay & Hlast).
      rewrite Hrows in Hcsv. simpl in Hcsv.
      destruct (IH s1 (rows ++ [row]) Hcsv) as (new_rows & Hnew & Hall).
      exists (row :: new_rows). split.
      * by rewrite Hnew, <- app_assoc.
      * constructor; [|exact Hall].
        exists appid. by rewrite Hname, Hplay, Hlast.
    + destruct (IH (printed (GameException appid name e) s1) rows)
        as (new_rows & Hnew & Hall).
      { unfold_states. simpl. congruence. }
      exists new_rows. by split.
Qed.



End ReportMore.

Lemma process_games_aborts_witness :
  process_games three_then_garbage no_repr (Some "key") "id"
    ([game_10] ++ nameless_game :: [game_440]) (snd (open_csv initial_state))
  = (Raise (KeyError "name"),
     snd (process_games three_then_garbage no_repr (Some "key") "id"
            [game_10] (snd (open_csv initial_state)))).
Proof.
  apply (process_games_aborts three_then_garbage no_repr (Some "key") "id"
           [game_10] nameless_game [game_440] (KeyError "name")).
  - repeat constructor.
  - reflexivity.
Defined.



(** ** The three endpoints of one game *)

Section Endpoints.

Variable server : nat -> string -> NetResult.
Variable py_repr : JSON -> string.
Variable api_key : option string.

Lemma review_url_not_metacritic appid :
  review_url py_repr appid <> metacritic_url py_repr appid.
Proof.
  unfold review_url, metacritic_url. intros H.
  generalize dependent (py_str py_repr appid). intros text H.
  cbv [String.append] in H. congruence.
Qed.

Lemma achievements_url_not_review appid appid' steam_id :
  achievements_url py_repr appid steam_id api_key
  <> review_url py_repr appid'.
Proof.
  unfold review_url, achievements_url. intros H.
  cbv [String.append] in H. congruence.
Qed.

Lemma achievements_url_not_metacritic appid appid' steam_id :
  achievements_url py_repr appid steam_id api_key
  <> metacritic_url py_repr appid'.
Proof.
  unfold metacritic_url, achievements_url. intros H.
  cbv [String.append] in H. congruence.
Qed.

Lemma request_first_success url s r :
  response_cache s !! url = None ->
  reply_outcome (server (length (net_calls s)) url) = inl r ->
  request server url true 0 0 s
  = (Return (Some r),
     {| response_cache := <[url := r]> (response_cache s);
        net_calls := net_calls s ++ [url];
        sleeps := sleeps s; console := console s;
        csvfile := csvfile s |}).
Proof.
  intros Hc Hr. rewrite request_step, Hc. cbv zeta. by rewrite Hr.
Qed.

(** X13. When none of a game's three URLs is cached, the network answers
    each first request with a success and the four extractions return,
    enriching the game costs exactly three requests (reviews, app details,
    achievements, in this order) and no sleep: the release date is read
    from the app-details response fetched for the score.  The row written
    carries the four results. *)
Theorem enrich_three_requests steam_id appid name playtime date s r1 r2 r3
    review score released beaten :
  let reviews := review_url py_repr appid in
  let details := metacritic_url py_repr appid in
  let achievements := achievements_url py_repr appid steam_id api_key in
  response_cache s !! reviews = None ->
  response_cache s !! details = None ->
  response_cache s !! achievements = None ->
  reply_outcome (server (length (net_calls s)) reviews) = inl r1 ->
  reply_outcome (server (S (length (net_calls s))) details) = inl r2 ->
  reply_outcome (server (S (S (length (net_calls s)))) achievements)
  = inl r3 ->
  review_summary_from (Some r1) = Return review ->
  metacritic_score_from py_repr appid (Some r2) = Return score ->
  release_date_from py_repr appid (Some r2) = Return released ->
  beaten_from (Some r3) = Return beaten ->
  let res := enrich_and_write server py_repr api_key steam_id
               appid name playtime date s in
  fst res = Return tt
  /\ net_calls (snd res) = net_calls s ++ [reviews; details; achievements]
  /\ sleeps (snd res) = sleeps s
  /\ csvfile (snd res)
     = Some (default [] (csvfile s)
             ++ [{| Name := name; Review_Rating := review;
                    Metacritic_Score := score;
                    Playtime_in_Minutes := playtime;
                    Date_Released := released;
                    Last_Played_Added := date;
                    Beaten := beaten |}]).
Proof.
  intros reviews details achievements Hc1 Hc2 Hc3 Hr1 Hr2 Hr3
    Hreview Hscore Hreleased Hbeaten. cbv zeta.
  unfold enrich_and_write, bind.
  unfold get_review_summary. rewrite fetch_or_return_eq.
  fold reviews. rewrite (request_first_success reviews s r1 Hc1 Hr1).
  rewrite Hreview.
  set (s1 := {| response_cache := <[reviews := r1]> (response_cache s);
                net_calls := net_calls s ++ [reviews];
                sleeps := sleeps s; console := console s;
                csvfile := csvfile s |}).
  unfold get_metacritic_score. rewrite fetch_or_return_eq. fold details.
  assert (Hc2' : response_cache s1 !! details = None).
  { simpl. rewrite lookup_insert_ne; [exact Hc2|].
    apply review_url_not_metacritic. }
  assert (Hr2' : reply_outcome (server (length (net_calls s1)) details)
                 = inl r2).
  { simpl. rewrite length_app. simpl. by rewrite Nat.add_1_r. }
  rewrite (request_first_success details s1 r2 Hc2' Hr2').
  rewrite Hscore.
  set (s2 := {| response_cache := <[details := r2]> (response_cache s1);
                net_calls := net_calls s1 ++ [details];
                sleeps := sleeps s1; console := console s1;
                csvfile := csvfile s1 |}).
  unfold get_release_date. rewrite fetch_or_return_eq.
  change (release_date_url py_repr appid) with details.
  rewrite (request_cached server details true 0 0 s2 r2)
    by (simpl; apply lookup_insert_eq).
  rewrite Hreleased.
  unfold is_game_beaten. rewrite fetch_or_return_eq. fold achievements.
  assert (Hc3' : response_cache s2 !! achievements = None).
  { simpl. rewrite !lookup_insert_ne; [exact Hc3| |].
    - intros H. by apply (achievements_url_not_review appid appid steam_id).
    - intros H.
      by apply (achievements_url_not_metacritic appid appid steam_id). }
  assert (Hr3' : reply_outcome
                   (server (length (net_calls s2)) achievements) = inl r3).
  { simpl. rewrite !length_app. simpl. rewrite !Nat.add_1_r. exact Hr3. }
  rewrite (request_first_success achievements s2 r3 Hc3' Hr3').
  rewrite Hbeaten. simpl. rewrite <- !app_assoc. by repeat split.
Qed.

End Endpoints.

Lemma enrich_three_requests_witness :
  net_calls (snd (enrich_and_write library_of_440 no_repr (Some "key")
                    "76561197960287930" (JInt 440) (JStr "Team Fortress 2")
                    (JInt 1200) "2020-03-21"
                    {| response_cache := ∅; net_calls := ["owned"];
                       sleeps := []; console := []; csvfile := Some [] |}))
  = ["owned"]
    ++ [review_url no_repr (JInt 440);
        metacritic_url no_repr (JInt 440);
        achievements_url no_repr (JInt 440) "76561197960287930"
          (Some "key")].
Proof.
  refine (proj1 (proj2 (enrich_three_requests library_of_440 no_repr
            (Some "key") "76561197960287930" (JInt 440)
            (JStr "Team Fortress 2") (JInt 1200) "2020-03-21"
            {| response_cache := ∅; net_calls := ["owned"];
               sleeps := []; console := []; csvfile := Some [] |}
            _ _ _ (JStr "Very Positive") (JInt 92) "2007-10-10" true
            _ _ _ _ _ _ _ _ _ _)));
    reflexivity.
Defined.

(** ** The shape of the date columns *)

Lemma digit_char_is_digit d : 0 <= d <= 9 -> is_digit (digit_char d) = true.
Proof.
  intros Hd. unfold is_digit. by rewrite digit_value_char.
Qed.

Lemma valid_date_bounds year month day :
  valid_date year month day = true ->
  1 <= year <= 9999 /\ 1 <= month <= 12 /\ 1 <= day <= 31.
Proof.
  intros Hvalid.
  unfold valid_date, days_in_month in Hvalid.
  repeat (apply andb_prop in Hvalid as [Hvalid ?]).
  repeat match goal with
         | H : (_ <=? _) = true |- _ => apply Z.leb_le in H
         end.
  assert (Hm : In month (seqZ 1 12))
    by (apply list_elem_of_In, elem_of_seqZ; lia).
  simpl in Hm.
  assert (days_in_month_of (is_leap year) month <= 31).
  { destruct (is_leap year);
      repeat (destruct Hm as [<-|Hm]; [vm_compute; discriminate|]);
      destruct Hm. }
  lia.
Qed.

Lemma strftime_is_iso year month day :
  0 <= year <= 9999 -> 0 <= month <= 99 -> 0 <= day <= 99 ->
  is_iso_date (strftime_Y_m_d (year, month, day)) = true.
Proof.
  intros Hy Hm Hd. unfold strftime_Y_m_d, pad4, pad2.
  cbv [String.append is_iso_date].
  rewrite !digit_char_is_digit; [reflexivity|..];
    Z.div_mod_to_equations; lia.
Qed.



(** ** The cost of one game *)

Section Cost.

Variable server : nat -> string -> NetResult.
Variable py_repr : JSON -> string.
Variable api_key : option string.

Lemma total_seconds_app waits1 waits2 :
  total_seconds (waits1 ++ waits2)
  = total_seconds waits1 + total_seconds waits2.
Proof.
  unfold total_seconds. induction waits1 as [|w waits1 IH]; simpl; lia.
Qed.

Lemma costs_refl s : costs s s 0 0.
Proof.
  exists [], []. rewrite !app_nil_r. repeat split; (done || simpl; lia).
Qed.

Lemma costs_trans s1 s2 s3 n1 n2 t1 t2 :
  costs s1 s2 n1 t1 -> costs s2 s3 n2 t2 ->
  costs s1 s3 (n1 + n2) (t1 + t2).
Proof.
  intros (c1 & w1 & Hc1 & Hn1 & Hw1 & Ht1) (c2 & w2 & Hc2 & Hn2 & Hw2 & Ht2).
  exists (c1 ++ c2), (w1 ++ w2).
  rewrite Hc2, Hc1, Hw2, Hw1, !app_assoc, length_app, total_seconds_app.
  repeat split; (done || lia).
Qed.

Lemma costs_weaken s s' n t n' t' :
  costs s s' n t -> (n <= n')%nat -> t <= t' -> costs s s' n' t'.
Proof.
  intros (c & w & Hc & Hn & Hw & Ht) Hn' Ht'. exists c, w.
  repeat split; (done || lia).
Qed.

Lemma request_costs url ignore_error s :
  costs s (snd (request server url ignore_error 0 0 s)) 11 303.
Proof.
  destruct (request_cost_from server url ignore_error 10 0 0 s eq_refl)
    as [Hsame|(j & Hj & Hs & Hn)].
  - rewrite Hsame. eapply costs_weaken; [apply costs_refl|lia|lia].
  - exists (replicate (S j) url), (take j backoff_waits).
    rewrite length_replicate. simpl in Hs.
    repeat split; try done; [lia|apply backoff_total].
Qed.

Lemma fetch_or_return_costs {A} url (sentinel : A) rest s :
  costs s (snd (fetch_or_return server url sentinel rest s)) 11 303.
Proof.
  rewrite fetch_or_return_eq.
  pose proof (request_costs url true s) as H.
  by destruct (request server url true 0 0 s) as [[response|e] s1].
Qed.

(** X15. Whatever the network answers, enriching one game takes at most
    44 network requests and at most 1212 seconds of sleep: four extractor
    calls of at most eleven requests and 303 seconds each. *)
Theorem enrich_and_write_bounded steam_id appid name playtime date s :
  costs s
    (snd (enrich_and_write server py_repr api_key steam_id
            appid name playtime date s))
    44 1212.
Proof.
  unfold enrich_and_write, bind.
  pose proof (fetch_or_return_costs (review_url py_repr appid)
                (JStr "Error Fetching Reviews") review_summary_from s) as H1.
  fold (get_review_summary server py_repr appid) in H1.
  destruct (get_review_summary server py_repr appid s) as [[review|e] s1];
    simpl in H1;
    [|eapply costs_weaken; [exact H1|lia|lia]].
  pose proof (fetch_or_return_costs (metacritic_url py_repr appid)
                (JStr "Error Fetching Metacritic Score")
                (metacritic_score_from py_repr appid) s1) as H2.
  fold (get_metacritic_score server py_repr appid) in H2.
  destruct (get_metacritic_score server py_repr appid s1) as [[score|e] s2];
    simpl in H2; pose proof (costs_trans _ _ _ _ _ _ _ H1 H2) as H12;
    [|eapply costs_weaken; [exact H12|lia|lia]].
  pose proof (fetch_or_return_costs (release_date_url py_repr appid)
                "Error Fetching Release Date"
                (release_date_from py_repr appid) s2) as H3.
  fold (get_release_date server py_repr appid) in H3.
  destruct (get_release_date server py_repr appid s2) as [[released|e] s3];
    simpl in H3; pose proof (costs_trans _ _ _ _ _ _ _ H12 H3) as H123;
    [|eapply costs_weaken; [exact H123|lia|lia]].
  pose proof (fetch_or_return_costs
                (achievements_url py_repr appid steam_id api_key)
                false beaten_from s3) as H4.
  fold (is_game_beaten server py_repr appid steam_id api_key) in H4.
  destruct (is_game_beaten server py_repr appid steam_id api_key s3)
    as [[beaten|e] s4];
    simpl in H4; pose proof (costs_trans _ _ _ _ _ _ _ H123 H4) as H1234;
    (eapply costs_weaken; [exact H1234|lia|lia]).
Qed.

(** X16. When the three URLs of a game are cached, as they are once the
    game has been enriched with success, enriching the same application
    again makes no network request and no sleep, and reads the same three
    responses. *)
Theorem enrich_cached_no_requests steam_id appid name playtime date s
    r1 r2 r3 :
  response_cache s !! review_url py_repr appid = Some r1 ->
  response_cache s !! metacritic_url py_repr appid = Some r2 ->
  response_cache s !! achievements_url py_repr appid steam_id api_key
  = Some r3 ->
  let res := enrich_and_write server py_repr api_key steam_id
               appid name playtime date s in
  net_calls (snd res) = net_calls s
  /\ sleeps (snd res) = sleeps s
  /\ response_cache (snd res) = response_cache s
  /\ console (snd res) = console s
  /\ fst res
     = (let* review := review_summary_from (Some r1) in
        let* score := metacritic_score_from py_repr appid (Some r2) in
        let* released := release_date_from py_repr appid (Some r2) in
        let* beaten := beaten_from (Some r3) in
        Return tt).
Proof.
  intros Hc1 Hc2 Hc3. cbv zeta. unfold enrich_and_write, bind.
  unfold get_review_summary, get_metacritic_score, get_release_date,
    is_game_beaten.
  change (release_date_url py_repr appid) with (metacritic_url py_repr appid).
  rewrite (fetch_or_return_eq server (review_url py_repr appid)).
  rewrite (request_cached server _ true 0 0 s r1 Hc1).
  destruct (review_summary_from (Some r1)) as [review|e]; simpl;
    [|by repeat split].
  rewrite (fetch_or_return_eq server (metacritic_url py_repr appid)).
  rewrite (request_cached server _ true 0 0 s r2 Hc2).
  destruct (metacritic_score_from py_repr appid (Some r2)) as [score|e];
    simpl; [|by repeat split].
  rewrite (fetch_or_return_eq server (metacritic_url py_repr appid)).
  rewrite (request_cached server _ true 0 0 s r2 Hc2).
  destruct (release_date_from py_repr appid (Some r2)) as [released|e];
    simpl; [|by repeat split].
  rewrite (fetch_or_return_eq server
             (achievements_url py_repr appid steam_id api_key)).
  rewrite (request_cached server _ true 0 0 s r3 Hc3).
  destruct (beaten_from (Some r3)) as [beaten|e]; simpl; by repeat split.
Qed.

Lemma fetch_failure_silent {A} url (sentinel : A) rest s e :
  response_cache s !! url = None ->
  reply_outcome (server (length (net_calls s)) url) = inr e ->
  is_429 e = false ->
  fetch_or_return server url sentinel rest s
  = (Return sentinel,
     {| response_cache := response_cache s;
        net_calls := net_calls s ++ [url];
        sleeps := sleeps s; console := console s;
        csvfile := csvfile s |}).
Proof.
  intros Hc Hr He. rewrite fetch_or_return_eq, request_step, Hc.
  cbv zeta. by rewrite Hr, He.
Qed.

(** X17. A failed fetch that is not an HTTP 429 costs an extractor one
    request and is silent: each of the four extractors returns its
    sentinel (["Error Fetching Reviews"], ["Error Fetching Metacritic
    Score"], ["Error Fetching Release Date"], [False]) and leaves the
    console, the cache and the sleeps as they were. *)
Theorem extractors_fail_silently appid steam_id s :
  let failed url (s' : State) :=
    net_calls s' = net_calls s ++ [url]
    /\ console s' = console s /\ sleeps s' = sleeps s
    /\ response_cache s' = response_cache s in
  let fails url :=
    response_cache s !! url = None
    /\ exists e,
         reply_outcome (server (length (net_calls s)) url) = inr e
         /\ is_429 e = false in
  (fails (review_url py_repr appid) ->
   fst (get_review_summary server py_repr appid s)
   = Return (JStr "Error Fetching Reviews")
   /\ failed (review_url py_repr appid)
        (snd (get_review_summary server py_repr appid s)))
  /\ (fails (metacritic_url py_repr appid) ->
      fst (get_metacritic_score server py_repr appid s)
      = Return (JStr "Error Fetching Metacritic Score")
      /\ failed (metacritic_url py_repr appid)
           (snd (get_metacritic_score server py_repr appid s)))
  /\ (fails (release_date_url py_repr appid) ->
      fst (get_release_date server py_repr appid s)
      = Return "Error Fetching Release Date"
      /\ failed (release_date_url py_repr appid)
           (snd (get_release_date server py_repr appid s)))
  /\ (fails (achievements_url py_repr appid steam_id api_key) ->
      fst (is_game_beaten server py_repr appid steam_id api_key s)
      = Return false
      /\ failed (achievements_url py_repr appid steam_id api_key)
           (snd (is_game_beaten server py_repr appid steam_id api_key s))).
Proof.
  cbv zeta.
  split; [|split; [|split]]; intros (Hc & e & Hr & He).
  - unfold get_review_summary.
    by rewrite (fetch_failure_silent _ _ _ _ e Hc Hr He).
  - unfold get_metacritic_score.
    by rewrite (fetch_failure_silent _ _ _ _ e Hc Hr He).
  - unfold get_release_date.
    by rewrite (fetch_failure_silent _ _ _ _ e Hc Hr He).
  - unfold is_game_beaten.
    by rewrite (fetch_failure_silent _ _ _ _ e Hc Hr He).
Qed.

End Cost.

Lemma enrich_cached_no_requests_witness :
  let s :=
    {| response_cache :=
         <[review_url no_repr (JInt 440) := ok_response review_summary_data]>
           (<[metacritic_url no_repr (JInt 440)
              := ok_response appdetails_440]>
              (<[achievements_url no_repr (JInt 440) "id" (Some "key")
                 := ok_response (achievements_data [true])]> ∅));
       net_calls := []; sleeps := []; console := []; csvfile := Some [] |} in
  net_calls (snd (enrich_and_write always_500 no_repr (Some "key") "id"
                    (JInt 440) (JStr "Team Fortress 2") (JInt 1200)
                    "2020-03-21" s))
  = net_calls s.
Proof.
  intros s.
  apply (enrich_cached_no_requests always_500 no_repr (Some "key") "id"
           (JInt 440) (JStr "Team Fortress 2") (JInt 1200) "2020-03-21" s
           (ok_response review_summary_data) (ok_response appdetails_440)
           (ok_response (achievements_data [true])));
    vm_compute; reflexivity.
Defined.

Lemma extractors_fail_silently_witness :
  fst (get_review_summary always_500 no_repr (JInt 440) initial_state)
  = Return (JStr "Error Fetching Reviews")
  /\ net_calls (snd (get_review_summary always_500 no_repr (JInt 440)
                       initial_state))
     = net_calls initial_state ++ [review_url no_repr (JInt 440)]
  /\ console (snd (get_review_summary always_500 no_repr (JInt 440)
                     initial_state)) = console initial_state
  /\ sleeps (snd (get_review_summary always_500 no_repr (JInt 440)
                    initial_state)) = sleeps initial_state
  /\ response_cache (snd (get_review_summary always_500 no_repr (JInt 440)
                            initial_state))
     = response_cache initial_state.
Proof.
  apply (proj1 (extractors_fail_silently always_500 no_repr (Some "key")
                  (JInt 440) "id" initial_state)).
  split; [reflexivity|].
  exists (RequestException (Some internal_server_error)).
  split; reflexivity.
Defined.
